(** * OM2Log2Heatmap: the log parser of [OM2Log2Heatmap.py]

    A shallow embedding of [detect_num_roots], [parse_ras_weights] and the
    energy header that [main] writes, with the properties of the parser
    stated and proved over it.

    Conventions of the embedding:
    - a text file is the list of lines its iterator yields ([for line in f],
      [next(f)]); a line keeps its trailing newline;
    - a character is a code point below 256 ([ascii]); whitespace, digits and
      case follow Python's [str] methods on that range;
    - a Python exception that leaves a function is a [Raise] outcome;
    - what [print] writes is kept as a list of messages;
    - Python's [float] is an abstract type with the operations the program
      uses (class [PyFloat]); [Binary64] instantiates it with IEEE 754
      double precision. *)

From Stdlib Require Import ZArith Ascii String List Bool Lia.
From Stdlib Require Import Floats.SpecFloat.
From stdpp Require Import base option list gmap strings fin_maps.

Local Open Scope string_scope.
Local Open Scope Z_scope.

(** ** Python strings *)

Module PyStr.

Definition code (c : ascii) : nat := nat_of_ascii c.

(** [str.isspace] on one character; also the class [\s] of [re]. *)
Definition is_space (c : ascii) : bool :=
  let n := code c in
  ((9 <=? n) && (n <=? 13) || (28 <=? n) && (n <=? 32)
   || (n =? 133) || (n =? 160))%nat.

(** The class [\d] of [re], and the digits [int] accepts. *)
Definition is_digit (c : ascii) : bool :=
  let n := code c in ((48 <=? n) && (n <=? 57))%nat.

Definition digit_val (c : ascii) : Z := Z.of_nat (code c) - 48.

(** [str.lower] on one character. *)
Definition lower_char (c : ascii) : ascii :=
  let n := code c in
  if ((65 <=? n) && (n <=? 90))%nat then ascii_of_nat (n + 32)
  else if ((192 <=? n) && (n <=? 222) && negb (n =? 215))%nat
       then ascii_of_nat (n + 32)
  else c.

Fixpoint lower (s : string) : string :=
  match s with
  | EmptyString => EmptyString
  | String c s' => String (lower_char c) (lower s')
  end.

(** [needle in s]. *)
Fixpoint contains (needle s : string) : bool :=
  String.prefix needle s
  || match s with
     | EmptyString => false
     | String _ s' => contains needle s'
     end.

(** The longest prefix of [s] whose characters satisfy [p], and the rest. *)
Fixpoint span (p : ascii -> bool) (s : string) : string * string :=
  match s with
  | EmptyString => (EmptyString, EmptyString)
  | String c s' =>
      if p c then let '(a, b) := span p s' in (String c a, b)
      else (EmptyString, s)
  end.

Fixpoint drop_while (p : ascii -> bool) (s : string) : string :=
  match s with
  | EmptyString => EmptyString
  | String c s' => if p c then drop_while p s' else s
  end.

(** The newline that ends a line of a text file. *)
Definition nl : string := String (ascii_of_nat 10) EmptyString.

(** [s.split()]: the maximal runs of non-whitespace characters.  [cur] is
    the run being read, in reverse. *)
Fixpoint split_aux (cur : list ascii) (s : string) : list string :=
  let flush := match cur with
               | [] => []
               | _ => [string_of_list_ascii (rev cur)]
               end in
  match s with
  | EmptyString => flush
  | String c s' =>
      if is_space c then flush ++ split_aux [] s'
      else split_aux (c :: cur) s'
  end.

Definition split (s : string) : list string := split_aux [] s.

Definition rev_string (s : string) : string :=
  string_of_list_ascii (rev (list_ascii_of_string s)).

(** [s.strip()]. *)
Definition strip (s : string) : string :=
  rev_string (drop_while is_space (rev_string (drop_while is_space s))).

(** [int(s)] for a token without whitespace: an optional sign, then digits
    in which single underscores may separate digits.  [None] stands for
    [ValueError].  The bound that CPython 3.11 puts on the number of digits
    (4300 by default) is left out: integers are unbounded. *)
Fixpoint int_digits (acc : Z) (prev_digit : bool) (s : string) : option Z :=
  match s with
  | EmptyString => if prev_digit then Some acc else None
  | String c s' =>
      if is_digit c then int_digits (10 * acc + digit_val c) true s'
      else if Ascii.eqb c "_" then
        if prev_digit then int_digits acc false s' else None
      else None
  end.

Definition int (s : string) : option Z :=
  match s with
  | String "-" s' => Z.opp <$> int_digits 0 false s'
  | String "+" s' => int_digits 0 false s'
  | _ => int_digits 0 false s
  end.

End PyStr.

(** ** The fragment of [re] the parser uses

    A pattern is a sequence of greedy repetitions of a character class,
    some of them capturing; [re.match] anchors it at the start of the string
    and leaves the end free.  A repetition first takes as many characters as
    it can and gives them back one at a time while the rest of the pattern
    fails. *)

Module Regex.

Record atom := Atom {
  cls : ascii -> bool;   (* the character class *)
  at_least : nat;        (* 0 for [*], 1 for [+] *)
  captured : bool        (* inside a group *)
}.

Fixpoint take_chars (n : nat) (s : string) : string :=
  match n, s with
  | S n', String c s' => String c (take_chars n' s')
  | _, _ => EmptyString
  end.

Fixpoint drop_chars (n : nat) (s : string) : string :=
  match n, s with
  | S n', String _ s' => drop_chars n' s'
  | _, _ => s
  end.

(** Tries the repetition [a] on [n], [n - 1], ... characters of [s], down
    to [at_least a], with [k] matching what follows. *)
Fixpoint backtrack (a : atom) (k : string -> option (list string))
    (n : nat) (s : string) : option (list string) :=
  let attempt :=
    if (at_least a <=? n)%nat then
      match k (drop_chars n s) with
      | Some gs => Some (if captured a then take_chars n s :: gs else gs)
      | None => None
      end
    else None in
  match attempt, n with
  | Some gs, _ => Some gs
  | None, O => None
  | None, S n' => backtrack a k n' s
  end.

(** [re.match(pattern, s)]: the groups of the match, or [None]. *)
Fixpoint re_match (pattern : list atom) (s : string) : option (list string) :=
  match pattern with
  | [] => Some []
  | a :: pattern' =>
      backtrack a (re_match pattern')
        (String.length (fst (PyStr.span (cls a) s))) s
  end.

Definition in_chars (chars : string) (c : ascii) : bool :=
  existsb (Ascii.eqb c) (list_ascii_of_string chars).

(** The pattern without its groups, and the number of groups. *)
Definition erase (a : atom) : atom := Atom (cls a) (at_least a) false.

Definition groups (pattern : list atom) : nat :=
  length (filter (fun a => captured a = true) pattern).

Definition star (p : ascii -> bool) := Atom p 0 false.
Definition plus (p : ascii -> bool) := Atom p 1 false.
Definition group_plus (p : ascii -> bool) := Atom p 1 true.

End Regex.

Import Regex.
Arguments re_match : simpl never.

(** [[\dud\*]], [[-\d.]] and [[\d.]]. *)
Definition occ_char (c : ascii) : bool := PyStr.is_digit c || in_chars "ud*" c.
Definition signed_char (c : ascii) : bool := in_chars "-" c || PyStr.is_digit c || in_chars "." c.
Definition decimal_char (c : ascii) : bool := PyStr.is_digit c || in_chars "." c.

(** [r'^\s*\d+\s+[\dud\*]+\s+[-\d.]+\s+[\d.]+'] *)
Definition config_re_plain : list atom :=
  [ star PyStr.is_space; plus PyStr.is_digit;
    plus PyStr.is_space; plus occ_char;
    plus PyStr.is_space; plus signed_char;
    plus PyStr.is_space; plus decimal_char ].

(** [r'^\s*(\d+)\s+([\dud\*]+)\s+([-\d.]+)\s+([\d.]+)'] *)
Definition config_re : list atom :=
  [ star PyStr.is_space; group_plus PyStr.is_digit;
    plus PyStr.is_space; group_plus occ_char;
    plus PyStr.is_space; group_plus signed_char;
    plus PyStr.is_space; group_plus decimal_char ].


(** ** Python floats

    The operations of [float] that the program uses.  [float_of_str] is
    [float(s)], with [None] for [ValueError]; [fle] is [<=]; [float_bool] is
    the truth value of a float in a condition. *)

Class PyFloat := {
  float : Type;
  float_of_str : string -> option float;
  float_of_int : Z -> float;
  fabs : float -> float;
  fmul : float -> float -> float;
  fsub : float -> float -> float;
  fle : float -> float -> bool;
  float_bool : float -> bool;
  (* the literal [27.2114] *)
  lit_27_2114 : float
}.

(** [<=] is transitive, as it is on IEEE 754 values (a comparison with a NaN
    is false). *)
Class PyFloatOrder (F : PyFloat) := {
  fle_trans : forall x y z : float, fle x y = true -> fle y z = true -> fle x z = true
}.

(** [x >= y] *)
Definition fge `{PyFloat} (x y : float) : bool := fle y x.

(** ** Outcomes and messages *)

Inductive exn := TypeError | ValueError | IndexError | KeyError | StopIteration.

Inductive outcome (A : Type) :=
| Ok (a : A)
| Raise (e : exn).
Arguments Ok {A} a.
Arguments Raise {A} e.

#[export] Instance outcome_bind : MBind outcome := fun A B k o =>
  match o with
  | Ok a => k a
  | Raise e => Raise e
  end.

Definition completes {A} (o : outcome A) : bool :=
  match o with Ok _ => true | Raise _ => false end.

(** [I] holds of the value returned, or [R] of the exception raised. *)
Definition outcome_sat {A} (I : A -> Prop) (R : exn -> Prop) (o : outcome A) : Prop :=
  match o with
  | Ok a => I a
  | Raise e => R e
  end.

Section Parser.
Context {F : PyFloat}.

(** What the two functions print. *)
Inductive msg :=
| Detected (num_roots : Z)
| WarnCirootParse
| WarnNoCiroot
| EnergyParseFailed (root : Z)
| FoundCoefficients (root : Z)
| ConfigFound (count : nat) (conf : string) (coeff weight : float).

(** [{'configs': {}, 'energy': None}] *)
Record RootRecord := Root {
  configs : gmap string float;
  energy : option float
}.

Definition empty_record : RootRecord := Root ∅ None.

Definition set_energy (e : float) (r : RootRecord) : RootRecord :=
  Root (configs r) (Some e).

Definition set_config (conf : string) (weight : float) (r : RootRecord) : RootRecord :=
  Root (<[conf := weight]> (configs r)) (energy r).

(** ** [detect_num_roots]

    The value returned ([None] is Python's [None]) and what was printed. *)
Fixpoint detect_num_roots (f : list string) : option Z * list msg :=
  match f with
  | [] => (None, [WarnNoCiroot])
  | line :: f' =>
      if PyStr.contains "ciroot" (PyStr.lower line) then
        match PyStr.split line !! 2%nat with
        | None => (Some 7, [WarnCirootParse])
        | Some tok =>
            match PyStr.int tok with
            | Some num_roots => (Some num_roots, [Detected num_roots])
            | None => (Some 7, [WarnCirootParse])
            end
        end
      else detect_num_roots f'
  end.

(** ** [parse_ras_weights] *)

Record state := State {
  roots : gmap Z RootRecord;
  current_root : Z;
  config_count : nat;
  in_config_section : bool;
  printed : list msg
}.

Definition print (m : msg) (st : state) : state :=
  State (roots st) (current_root st) (config_count st) (in_config_section st)
        (printed st ++ [m]).

Definition set_roots (rs : gmap Z RootRecord) (st : state) : state :=
  State rs (current_root st) (config_count st) (in_config_section st) (printed st).

Definition set_in_config_section (b : bool) (st : state) : state :=
  State (roots st) (current_root st) (config_count st) b (printed st).

(** [{i: {'configs': {}, 'energy': None} for i in range(1, num_roots+1)}] *)
Definition initial_roots (num_roots : Z) : gmap Z RootRecord :=
  list_to_map ((fun i => (i, empty_record)) <$> seqZ 1 num_roots).

Definition initial_state (num_roots : Z) : state :=
  State (initial_roots num_roots) 0 0 false [].

Definition root_start_phrase : string := "printout of CI-coefficients larger than".

(** [int(line.split()[-1])] *)
Definition root_index (line : string) : outcome Z :=
  match last (PyStr.split line) with
  | None => Raise IndexError
  | Some tok =>
      match PyStr.int tok with
      | Some k => Ok k
      | None => Raise ValueError
      end
  end.

(** [current_root = ...; in_config_section = True; config_count = 0] *)
Definition enter_root (k : Z) (st : state) : state :=
  State (roots st) k 0 true (printed st).

(** [roots[current_root]['energy'] = energy] *)
Definition store_energy (e : float) (st : state) : outcome state :=
  match roots st !! current_root st with
  | None => Raise KeyError
  | Some r => Ok (set_roots (<[current_root st := set_energy e r]> (roots st)) st)
  end.

(** The statements between [next_line = next(f)] and [continue]. *)
Definition energy_capture (st : state) (next_line : string) : outcome state :=
  st' ← (if PyStr.contains "energy=" next_line then
            match PyStr.split next_line !! 1%nat with
            | None => Ok (print (EnergyParseFailed (current_root st)) st)
            | Some tok =>
                match float_of_str tok with
                | None => Ok (print (EnergyParseFailed (current_root st)) st)
                | Some e => store_energy e st
                end
            end
          else Ok st);
  Ok (print (FoundCoefficients (current_root st')) st').

(** [roots[current_root]['configs'][conf] = weight; config_count += 1; print] *)
Definition store_config (conf : string) (coeff weight : float) (st : state) : outcome state :=
  match roots st !! current_root st with
  | None => Raise KeyError
  | Some r =>
      let count := S (config_count st) in
      Ok (State (<[current_root st := set_config conf weight r]> (roots st))
                (current_root st) count (in_config_section st)
                (printed st ++ [ConfigFound count conf coeff weight]))
  end.

(** The body of the loop for a line that is not a root start. *)
Definition config_line (threshold : float) (st : state) (line : string) : outcome state :=
  if in_config_section st && (0 <? current_root st) then
    if negb (bool_decide (is_Some (re_match config_re_plain (PyStr.strip line)))) then Ok st
    else
      match re_match config_re (PyStr.strip line) with
      | Some [conf_num; conf; g3; g4] =>
          if negb (String.length conf =? 14)%nat then Ok st
          else
            match float_of_str g3 with
            | None => Ok st
            | Some coeff =>
                match float_of_str g4 with
                | None => Ok st
                | Some w =>
                    let weight := fmul w (float_of_int 100) in
                    if fge (fabs coeff) threshold
                    then store_config conf coeff weight st
                    else Ok st
                end
            end
      | Some _ => Raise IndexError
      | None =>
          if PyStr.contains "Natural orbitals and occupation numbers" line
          then Ok (set_in_config_section false st)
          else if PyStr.contains "----" line || PyStr.contains "====" line
          then Ok (set_in_config_section false st)
          else Ok st
      end
  else Ok st.

(** [for line in f: ...], with [next(f)] taking the line after a root start
    from the same iterator. *)
Fixpoint loop (threshold : float) (st : state) (f : list string) : outcome state :=
  match f with
  | [] => Ok st
  | line :: f' =>
      if PyStr.contains root_start_phrase line then
        k ← root_index line;
        match f' with
        | [] => Raise StopIteration
        | next_line :: f'' =>
            st' ← energy_capture (enter_root k st) next_line;
            loop threshold st' f''
        end
      else
        st' ← config_line threshold st line;
        loop threshold st' f'
  end.

(** The state at the end of the pass; [num_roots + 1] with [num_roots = None]
    is a [TypeError]. *)
Definition parse_pass (f : list string) (threshold : float) : outcome state :=
  match fst (detect_num_roots f) with
  | None => Raise TypeError
  | Some num_roots => loop threshold (initial_state num_roots) f
  end.

Definition parse_ras_weights (f : list string) (threshold : float)
  : outcome (gmap Z RootRecord) :=
  st ← parse_pass f threshold; Ok (roots st).

End Parser.

(** ** IEEE 754 double precision

    [float] as CPython has it: binary64 with round to nearest, ties to even.
    A decimal string is converted exactly ([m * 10^e] as a quotient of
    integers) and rounded once. *)

Module Binary64.

Definition prec : Z := 53.
Definition emax : Z := 1024.

Definition of_Z (n : Z) : spec_float := binary_normalize prec emax n 0 false.

(** The double nearest to [(-1)^neg * m * 10^e10]. *)
Definition of_decimal (neg : bool) (m e10 : Z) : spec_float :=
  match m with
  | Zpos p =>
      if 0 <=? e10 then binary_round prec emax neg (p * Z.to_pos (10 ^ e10)) 0
      else SFdiv prec emax (S754_finite neg p 0)
                           (S754_finite false (Z.to_pos (10 ^ (- e10))) 0)
  | _ => S754_zero neg
  end.

(** Underscores are removed after checking that each one stands between two
    digits. *)
Fixpoint strip_underscores (prev : ascii) (s : string) : option string :=
  match s with
  | EmptyString => if Ascii.eqb prev "_" then None else Some EmptyString
  | String c s' =>
      if Ascii.eqb c "_" then
        if PyStr.is_digit prev then strip_underscores c s' else None
      else if Ascii.eqb prev "_" && negb (PyStr.is_digit c) then None
      else String c <$> strip_underscores c s'
  end.

Definition split_sign (s : string) : bool * string :=
  match s with
  | String "-" s' => (true, s')
  | String "+" s' => (false, s')
  | _ => (false, s)
  end.

Fixpoint digits_val (acc : Z) (s : string) : Z :=
  match s with
  | EmptyString => acc
  | String c s' => digits_val (10 * acc + PyStr.digit_val c) s'
  end.

(** The exponent part: empty, or [e] or [E], an optional sign and digits. *)
Definition exponent (s : string) : option Z :=
  match s with
  | EmptyString => Some 0
  | String c s' =>
      if Ascii.eqb c "e" || Ascii.eqb c "E" then
        let '(neg, s'') := split_sign s' in
        let '(ds, rest) := PyStr.span PyStr.is_digit s'' in
        if String.eqb ds "" || negb (String.eqb rest "") then None
        else Some (if neg then - digits_val 0 ds else digits_val 0 ds)
      else None
  end.

(** [float(s)]: whitespace around the number is dropped; the scan for
    underscores starts with the null character as previous character. *)
Definition of_str (s : string) : option spec_float :=
  s ← strip_underscores "000" (PyStr.strip s);
  let '(neg, body) := split_sign s in
  let name := PyStr.lower body in
  if String.eqb name "inf" || String.eqb name "infinity" then Some (S754_infinity neg)
  else if String.eqb name "nan" then Some S754_nan
  else
    let '(ip, r1) := PyStr.span PyStr.is_digit body in
    let '(fp, r2) := match r1 with
                     | String "." r => PyStr.span PyStr.is_digit r
                     | _ => (EmptyString, r1)
                     end in
    if String.eqb ip "" && String.eqb fp "" then None
    else
      e ← exponent r2;
      Some (of_decimal neg (digits_val 0 (ip +:+ fp)) (e - Z.of_nat (String.length fp))).

Definition to_bool (x : spec_float) : bool :=
  match x with
  | S754_zero _ => false
  | _ => true
  end.

Definition literal (s : string) : spec_float := default S754_nan (of_str s).

#[export] Instance binary64 : PyFloat := {|
  float := spec_float;
  float_of_str := of_str;
  float_of_int := of_Z;
  fabs := SFabs;
  fmul := SFmul prec emax;
  fsub := SFsub prec emax;
  fle := SFleb;
  float_bool := to_bool;
  lit_27_2114 := literal "27.2114"
|}.

End Binary64.

(** ** The parser in its surroundings

    What lies outside the function: the files, by name, and what has been
    printed so far.  [parse_ras_weights(log_file, threshold)] opens the
    file twice, once in [detect_num_roots] and once for the pass, and prints
    after what was printed before. *)

Section Surroundings.
Context {F : PyFloat}.

Record world := World {
  files : gmap string (list string);
  stdout : list msg
}.

(** How a call ends: with the collection and the world it leaves, with an
    exception of the parser, or with [FileNotFoundError] from [open]. *)
Inductive io_outcome :=
| Returned (rs : gmap Z RootRecord) (w : world)
| Failed (e : exn)
| NoSuchFile.

Definition parse_ras_weights_io (w : world) (log_file : string) (threshold : float)
  : io_outcome :=
  match files w !! log_file with
  | None => NoSuchFile
  | Some f1 =>
      let '(num_roots, out) := detect_num_roots f1 in
      let w1 := World (files w) (stdout w ++ out) in
      match num_roots with
      | None => Failed TypeError
      | Some n =>
          match files w1 !! log_file with
          | None => NoSuchFile
          | Some f2 =>
              match loop threshold (State (initial_roots n) 0 0 false (stdout w1)) f2 with
              | Ok st => Returned (roots st) (World (files w1) (printed st))
              | Raise e => Failed e
              end
          end
      end
  end.

(** Two calls end alike: with the same collection, or the same exception. *)
Definition same_result (o1 o2 : io_outcome) : Prop :=
  match o1, o2 with
  | Returned rs1 _, Returned rs2 _ => rs1 = rs2
  | Failed e1, Failed e2 => e1 = e2
  | NoSuchFile, NoSuchFile => True
  | _, _ => False
  end.

(** The call ends as the function of the text does. *)
Definition result_is (o : io_outcome) (r : outcome (gmap Z RootRecord)) : Prop :=
  match o, r with
  | Returned rs _, Ok rs' => rs = rs'
  | Failed e, Raise e' => e = e'
  | _, _ => False
  end.

(** Two states of the loop that differ at most in what has been printed. *)
Definition same_but_printed (st1 st2 : state) : Prop :=
  roots st1 = roots st2
  /\ current_root st1 = current_root st2
  /\ config_count st1 = config_count st2
  /\ in_config_section st1 = in_config_section st2.

Definition alike (o1 o2 : outcome state) : Prop :=
  match o1, o2 with
  | Ok st1, Ok st2 => same_but_printed st1 st2
  | Raise e1, Raise e2 => e1 = e2
  | _, _ => False
  end.

End Surroundings.

(** ** Notions used in the statements *)

Section Notions.
Context {F : PyFloat}.

(** The line is a configuration line that the threshold admits: it matches
    the pattern with a 14-character second field, both numbers parse, and
    the coefficient passes the filter. *)
Definition admits (threshold : float) (line conf : string) (coeff weight : float) : Prop :=
  exists conf_num g3 g4 w,
    re_match config_re (PyStr.strip line) = Some [conf_num; conf; g3; g4]
    /\ String.length conf = 14%nat
    /\ float_of_str g3 = Some coeff
    /\ float_of_str g4 = Some w
    /\ weight = fmul w (float_of_int 100)
    /\ fge (fabs coeff) threshold = true.

(** The energy that the line after a root start carries, if any: the line
    contains "energy=" and its second token is a float. *)
Definition line_energy (next_line : string) : option float :=
  if PyStr.contains "energy=" next_line then
    tok ← PyStr.split next_line !! 1%nat; float_of_str tok
  else None.

(** The energy that the root starts of [f] leave to root [k]: that of the
    last root start for [k] that the loop reads and whose next line carries
    an energy; [acc] is the energy before [f]. *)
Fixpoint last_energy (k : Z) (acc : option float) (f : list string) : option float :=
  match f with
  | [] => acc
  | line :: f' =>
      if PyStr.contains root_start_phrase line then
        match f' with
        | [] => acc
        | next_line :: f'' =>
            let acc' :=
              match root_index line, line_energy next_line with
              | Ok k', Some e => if Z.eqb k' k then Some e else acc
              | _, _ => acc
              end in
            last_energy k acc' f''
        end
      else last_energy k acc f'
  end.

(** Whether the loop, having read all of [f], is at a root start whose
    [next(f)] is still to come: the line after [f] is then taken by it. *)
Fixpoint pending_root_start (f : list string) : bool :=
  match f with
  | [] => false
  | line :: f' =>
      if PyStr.contains root_start_phrase line then
        match f' with
        | [] => true
        | _ :: f'' => pending_root_start f''
        end
      else pending_root_start f'
  end.

(** [st1] and [st2] are at the same place of the same text, with the same
    roots, and every configuration recorded in [st2] is recorded in [st1]. *)
Definition covers (st1 st2 : state) : Prop :=
  current_root st1 = current_root st2
  /\ in_config_section st1 = in_config_section st2
  /\ forall k, match roots st1 !! k, roots st2 !! k with
               | Some r1, Some r2 => dom (configs r2) ⊆ dom (configs r1)
               | None, None => True
               | _, _ => False
               end.

End Notions.

(** ** The energy header of the report ([main])

    The values that the f-strings format, and the lines written before the
    table; how a float is printed is left to Python. *)

Section Report.
Context {F : PyFloat}.

Inductive pyval :=
| PyString (s : string)
| PyNone
| PyFloatV (x : float).

Inductive piece :=
| Lit (s : string)                   (* literal text *)
| Str (v : pyval)                    (* [{v}] *)
| Fixed (digits : nat) (x : float).  (* [{x:.4f}] *)

(** [roots.get(root, {}).get('energy', dflt)] *)
Definition get_energy (collection : gmap Z RootRecord) (root : Z) (dflt : pyval) : pyval :=
  match collection !! root with
  | None => dflt
  | Some r =>
      match energy r with
      | None => PyNone
      | Some e => PyFloatV e
      end
  end.

(** [roots.get(root, {}).get('configs', {})] *)
Definition get_configs (collection : gmap Z RootRecord) (root : Z) : gmap string float :=
  match collection !! root with
  | None => ∅
  | Some r => configs r
  end.

Definition all_confs (planar_roots nonplanar_roots : gmap Z RootRecord) (root : Z)
  : gset string :=
  dom (get_configs planar_roots root) ∪ dom (get_configs nonplanar_roots root).

(** The truth value of a value in a condition. *)
Definition truth (v : pyval) : bool :=
  match v with
  | PyString s => negb (String.eqb s "")
  | PyNone => false
  | PyFloatV x => float_bool x
  end.

(** [if planar_energy and nonplanar_energy: ...] *)
Definition energy_difference_lines (planar_energy nonplanar_energy : pyval)
  : list (list piece) :=
  if truth planar_energy && truth nonplanar_energy then
    match planar_energy, nonplanar_energy with
    | PyFloatV p, PyFloatV np =>
        [[Lit "Energy Difference (eV): ";
          Fixed 4 (fmul (fsub np p) lit_27_2114); Lit PyStr.nl]]
    | _, _ => []
    end
  else [].

Definition report_header (threshold : float)
    (planar_roots nonplanar_roots : gmap Z RootRecord) (root : Z)
  : list (list piece) :=
  [ [Lit "Coefficient threshold: |c| >= "; Str (PyFloatV threshold); Lit PyStr.nl];
    [Lit "p-NDP Energy (Hartree): ";
     Str (get_energy planar_roots root (PyString "N/A")); Lit PyStr.nl];
    [Lit "NDP Energy (Hartree): ";
     Str (get_energy nonplanar_roots root (PyString "N/A")); Lit PyStr.nl] ]
  ++ energy_difference_lines (get_energy planar_roots root PyNone)
                             (get_energy nonplanar_roots root PyNone)
  ++ [[Lit PyStr.nl]].

End Report.

(** ** The configuration pattern as fields

    What the pattern asks of a string, read from left to right without
    giving characters back: a field is the longest run of its class, and it
    must not be empty. *)

Definition field (p : ascii -> bool) (s : string) : option (string * string) :=
  let '(a, b) := PyStr.span p s in
  if String.eqb a "" then None else Some (a, b).

Definition config_fields (s : string) : option (list string) :=
  '(g1, s1) ← field PyStr.is_digit (snd (PyStr.span PyStr.is_space s));
  '(_, s2) ← field PyStr.is_space s1;
  '(g2, s3) ← field occ_char s2;
  '(_, s4) ← field PyStr.is_space s3;
  '(g3, s5) ← field signed_char s4;
  '(_, s6) ← field PyStr.is_space s5;
  '(g4, _) ← field decimal_char s6;
  Some [g1; g2; g3; g4].

(** Every character of [s] is of the class [p]. *)
Definition all_chars (p : ascii -> bool) (s : string) : bool :=
  forallb p (list_ascii_of_string s).

(** ** [map_config_to_label] *)

Definition CONFIG_LABELS : gmap string string :=
  list_to_map [
    ("2222222u000000", "$\pi_1^*$");
    ("222222200u0000", "$\pi_3^*$");
    ("22222220u00000", "$\pi_2^*$");
    ("22222u22000000", "$\pi\pi_2^*$+$\pi_2^*$");
    ("222222200000u0", "$\pi_4^*$");
    ("2222222000u000", "$\sigma_{NO}^*$");
    ("22222220000u00", "$\sigma_{{CCl}_1}^*$");
    ("2222222000000u", "$\sigma_{{CCl}_2}^*$") ].

(** [CONFIG_LABELS.get(config, config)] *)
Definition map_config_to_label (config : string) : string :=
  default config (CONFIG_LABELS !! config).

(** ** The start of [main]: arguments and threshold *)

(** [arg.split('=', 1)] for an argument that contains ['=']; [None] when it
    does not. *)
Fixpoint split_eq (arg : string) : option (string * string) :=
  match arg with
  | EmptyString => None
  | String c arg' =>
      if Ascii.eqb c "=" then Some (EmptyString, arg')
      else (fun kv => (String c (fst kv), snd kv)) <$> split_eq arg'
  end.

(** [for arg in sys.argv[1:]: if '=' in arg: ...; args[key] = value] *)
Definition read_args (argv : list string) : gmap string string :=
  foldl (fun args arg =>
           match split_eq arg with
           | Some (key, value) => <[key := value]> args
           | None => args
           end) ∅ argv.

Section Startup.
Context {F : PyFloat}.

(** How [main] gets to the parsing: it prints the usage and exits, or
    [float] raises on the threshold, or it goes on with the threshold and
    the two file names. *)
Inductive startup :=
| Usage
| BadThreshold
| Started (threshold : float) (nonplanar_log planar_log : string).

(** Lines 134 to 151 of [main]; [default_threshold] is the literal [0.2]. *)
Definition main_startup (default_threshold : float) (argv : list string) : startup :=
  let args := read_args argv in
  match args !! "geo1", args !! "geo2" with
  | Some geo1, Some geo2 =>
      match args !! "thres" with
      | None => Started default_threshold geo1 geo2
      | Some thres =>
          match float_of_str thres with
          | Some threshold => Started threshold geo1 geo2
          | None => BadThreshold
          end
      end
  | _, _ => Usage
  end.

(** ** The roots that [main] goes through, and the rows of a table *)

(** [max(roots.keys()) if roots else 0] *)
Definition max_key (collection : gmap Z RootRecord) : Z :=
  match elements (dom collection) with
  | [] => 0
  | k :: ks => foldr Z.max k ks
  end.

Definition main_num_roots (planar_roots nonplanar_roots : gmap Z RootRecord) : Z :=
  Z.max (max_key planar_roots) (max_key nonplanar_roots).

(** The rows of [data]: label, planar weight, non-planar weight; [zero] is
    the literal [0.0].  Python goes through the set [all_confs] in an order
    of its own; the rows are given here in the order of [elements]. *)
Definition table_rows (zero : float) (planar_roots nonplanar_roots : gmap Z RootRecord)
    (root : Z) : list (string * float * float) :=
  (fun conf =>
     (map_config_to_label conf,
      default zero (get_configs planar_roots root !! conf),
      default zero (get_configs nonplanar_roots root !! conf)))
  <$> elements (all_confs planar_roots nonplanar_roots root).

(** The collection has the roots 1..num_roots, and the current root, when
    positive, is one of them. *)
Definition in_range (num_roots : Z) (st : state) : Prop :=
  (forall k, is_Some (roots st !! k) <-> 1 <= k <= num_roots)
  /\ (0 < current_root st -> current_root st <= num_roots).

(** Every root start that the loop reads names a root in [1..num_roots]
    and has a line after it. *)
Fixpoint well_formed (num_roots : Z) (f : list string) : bool :=
  match f with
  | [] => true
  | line :: f' =>
      if PyStr.contains root_start_phrase line then
        match root_index line, f' with
        | Ok k, _ :: f'' => (1 <=? k) && (k <=? num_roots) && well_formed num_roots f''
        | _, _ => false
        end
      else well_formed num_roots f'
  end.

End Startup.

(** ** Sample texts *)

Module Samples.
Import Binary64.

Definition text (lines : list string) : list string :=
  (fun l => l +:+ PyStr.nl) <$> lines.

Definition threshold_02 : @float binary64 := literal "0.2".
Definition threshold_005 : @float binary64 := literal "0.05".

(** One root, with its energy and two configurations. *)
Definition log_one_root : list string := text [
  "      ciroot = 1 1 1";
  "      printout of CI-coefficients larger than  0.05 for root  1";
  "      energy=    -100.123456";
  "  conf/sym  11111111111111     Coeff  Weight";
  "       1  22222220u00000  -0.950 0.902";
  "       2  2222222u000000   0.100 0.010" ].

(** No line with "ciroot". *)
Definition log_no_ciroot : list string := text [
  "      printout of CI-coefficients larger than  0.05 for root  1";
  "      energy=    -100.123456";
  "       1  22222220u00000  -0.950 0.902" ].

(** A root start whose last token is not an integer. *)
Definition log_bad_root_index : list string := text [
  "      ciroot = 1 1 1";
  "      printout of CI-coefficients larger than  0.05 for root  1:";
  "      energy=    -100.123456";
  "       1  22222220u00000  -0.950 0.902" ].

(** A table after the end of the configuration section. *)
Definition log_after_section : list string := text [
  "      ciroot = 1 1 1";
  "      printout of CI-coefficients larger than  0.05 for root  1";
  "      energy=    -100.123456";
  "       1  22222220u00000  -0.950 0.902";
  "      Natural orbitals and occupation numbers for root  1";
  "      --------------------------------------------------";
  "       7  222222200u0000   0.500 0.250" ].

(** A root start for root 2 where one root was announced. *)
Definition log_extra_root : list string := text [
  "      ciroot = 1 1 1";
  "      printout of CI-coefficients larger than  0.05 for root  2";
  "      (no energy)";
  "       1  22222220u00000  -0.950 0.902" ].

Definition log_extra_root_energy : list string := text [
  "      ciroot = 1 1 1";
  "      printout of CI-coefficients larger than  0.05 for root  2";
  "      energy=    -100.123456" ].

(** Two blocks for root 1, with different energies. *)
Definition log_two_blocks : list string := text [
  "      ciroot = 1 1 1";
  "      printout of CI-coefficients larger than  0.05 for root  1";
  "      energy=    -1.0";
  "      printout of CI-coefficients larger than  0.05 for root  1";
  "      energy=    -2.0" ].

(** A root start as last line, taken as the next line of another one. *)
Definition log_ends_with_root_start : list string := text [
  "      ciroot = 1 1 1";
  "      printout of CI-coefficients larger than  0.05 for root  1";
  "      printout of CI-coefficients larger than  0.05 for root  1" ].

(** A block without an energy line. *)
Definition log_no_energy : list string := text [
  "      ciroot = 1 1 1";
  "      printout of CI-coefficients larger than  0.05 for root  1";
  "  conf/sym  11111111111111     Coeff  Weight";
  "       1  22222220u00000  -0.950 0.902" ].

(** A block whose energy is zero. *)
Definition log_zero_energy : list string := text [
  "      ciroot = 1 1 1";
  "      printout of CI-coefficients larger than  0.05 for root  1";
  "      energy=    0.0";
  "       1  22222220u00000  -0.950 0.902" ].

(** The state inside the block of root 1, and single lines. *)
Definition in_root_1 : @state binary64 := enter_root 1 (initial_state 1).

Definition root_start_line : string :=
  "      printout of CI-coefficients larger than  0.05 for root  1" +:+ PyStr.nl.

Definition bad_root_start_line : string :=
  "      printout of CI-coefficients larger than  0.05 for root  1:" +:+ PyStr.nl.

Definition natural_orbitals_line : string :=
  "      Natural orbitals and occupation numbers for root  1" +:+ PyStr.nl.

Definition config_line_1 : string :=
  "       1  22222220u00000  -0.950 0.902" +:+ PyStr.nl.

(** The collection that the parser returns, empty if it raises. *)
Definition parsed (f : list string) (threshold : @float binary64)
  : gmap Z (@RootRecord binary64) :=
  match parse_ras_weights f threshold with
  | Ok rs => rs
  | Raise _ => ∅
  end.

Definition record (rs : gmap Z (@RootRecord binary64)) (k : Z) : @RootRecord binary64 :=
  default empty_record (rs !! k).

End Samples.

Module MoreSamples.
Import Binary64 Samples.

(** A text with a root count and no block. *)
Definition log_no_blocks : list string := text [
  "      CIROOT = 2 2 1";
  "      Convergence after 12 iterations";
  "      ----------------------------------" ].

(** Three roots announced, one block. *)
Definition log_three_roots : list string := text [
  "      ciroot = 3 3 1";
  "      printout of CI-coefficients larger than  0.05 for root  2";
  "      energy=    -100.050000";
  "       1  222222200u0000   0.700 0.490" ].

(** One root announced; a block for root 1, and a block for root 2 with a
    line of coefficient 0.100. *)
Definition log_low_extra_root : list string := text [
  "      ciroot = 1 1 1";
  "      printout of CI-coefficients larger than  0.05 for root  1";
  "      energy=    -100.050000";
  "       1  222222200u0000   0.700 0.490";
  "      printout of CI-coefficients larger than  0.05 for root  2";
  "      (no energy)";
  "       1  2222222u000000   0.100 0.010" ].

(** Two worlds that hold the text of [log_one_root] under different names,
    with different other files and different output so far. *)
Definition world_1 : @world binary64 :=
  World {[ "flat.log" := log_one_root ]} [].

Definition world_2 : @world binary64 :=
  World {[ "runs/bent.log" := log_one_root; "two.log" := log_two_blocks ]}
        [WarnNoCiroot; FoundCoefficients 3].

Definition ciroot_line : string := "      ciroot = 3 3 1" +:+ PyStr.nl.

Definition bad_energy_line : string := "      energy=    n/a" +:+ PyStr.nl.

(** The configuration of [config_line_1] with other numbers, and a line
    whose coefficient is below 0.2. *)
Definition config_line_2 : string :=
  "       3  22222220u00000   0.500 0.250" +:+ PyStr.nl.

Definition config_line_low : string :=
  "       2  2222222u000000   0.100 0.010" +:+ PyStr.nl.

Definition argv_1 : list string :=
  ["geo1=bent.log"; "thres=0.1"; "thres=0.3"; "geo2=flat.log"; "verbose"].

(** The state that an outcome returns, [st] if it raises. *)
Definition state_of (o : outcome (@state binary64)) (st : @state binary64)
  : @state binary64 :=
  match o with
  | Ok st' => st'
  | Raise _ => st
  end.

End MoreSamples.

(** * Properties *)

(** ** The patterns *)

Section RegexFacts.

Lemma backtrack_erase a k k' n s :
  (forall s', is_Some (k s') <-> is_Some (k' s')) ->
  is_Some (backtrack a k n s) <-> is_Some (backtrack (erase a) k' n s).
Proof.
  intros Hk.
  assert (Hstep : forall (m : nat) (rest rest' : option (list string)),
    (is_Some rest <-> is_Some rest') ->
    is_Some match
              (if (at_least a <=? m)%nat
               then match k (drop_chars m s) with
                    | Some gs => Some (if captured a then take_chars m s :: gs else gs)
                    | None => None
                    end
               else None)
            with Some gs => Some gs | None => rest end
    <-> is_Some match
              (if (at_least a <=? m)%nat
               then match k' (drop_chars m s) with
                    | Some gs => Some gs
                    | None => None
                    end
               else None)
            with Some gs => Some gs | None => rest' end).
  { intros m rest rest' Hrest. destruct (at_least a <=? m)%nat; [|done].
    pose proof (Hk (drop_chars m s)) as [H1 H2].
    destruct (k (drop_chars m s)) as [gs|], (k' (drop_chars m s)) as [gs'|]; simpl.
    - split; intros _; by eexists.
    - destruct (is_Some_None (A := list string)). apply H1. by eexists.
    - destruct (is_Some_None (A := list string)). apply H2. by eexists.
    - done. }
  induction n as [|n IH].
  - exact (Hstep 0%nat None None (reflexivity _)).
  - exact (Hstep (S n) _ _ IH).
Qed.

Lemma re_match_erase pattern s :
  is_Some (re_match pattern s) <-> is_Some (re_match (erase <$> pattern) s).
Proof.
  revert s. induction pattern as [|a pattern IH]; intros s; simpl.
  - done.
  - by apply backtrack_erase.
Qed.

(** The two patterns of the source accept the same strings. *)
Lemma config_re_plain_iff s :
  is_Some (re_match config_re_plain s) <-> is_Some (re_match config_re s).
Proof. symmetry. exact (re_match_erase config_re s). Qed.

Lemma backtrack_groups a k n s gs m :
  (forall s' gs', k s' = Some gs' -> length gs' = m) ->
  backtrack a k n s = Some gs ->
  length gs = if captured a then S m else m.
Proof.
  intros Hk. induction n as [|n IH]; simpl.
  - destruct (at_least a <=? 0)%nat; [|done].
    destruct (k _) eqn:E; [|done].
    intros [= <-]. apply Hk in E. destruct (captured a); simpl; lia.
  - destruct (at_least a <=? S n)%nat; [|exact IH].
    destruct (k _) eqn:E; [|exact IH].
    intros [= <-]. apply Hk in E. destruct (captured a); simpl; lia.
Qed.

Lemma re_match_groups pattern s gs :
  re_match pattern s = Some gs -> length gs = groups pattern.
Proof.
  revert s gs. induction pattern as [|a pattern IH]; intros s gs; simpl.
  - by intros [= <-].
  - intros H. eapply backtrack_groups in H; [|exact IH].
    rewrite H. unfold groups. rewrite filter_cons.
    by destruct (captured a).
Qed.

(** A match of the configuration pattern has its four groups. *)
Lemma config_re_four s gs :
  re_match config_re s = Some gs ->
  exists conf_num conf g3 g4, gs = [conf_num; conf; g3; g4].
Proof.
  intros H. apply re_match_groups in H. change (groups config_re) with 4%nat in H.
  destruct gs as [|a [|b [|c [|d [|? ?]]]]]; simpl in H; try lia. by eexists _, _, _, _.
Qed.

End RegexFacts.

(** ** One iteration of the loop *)

Section ParserFacts.
Context {F : PyFloat}.
Implicit Types (st : state) (line : string) (f : list string) (threshold : float).

(** A line that is not a root start leaves the state as it is, or stores an
    admitted configuration for the current root. *)
Lemma config_line_cases threshold st line :
  config_line threshold st line = Ok st
  \/ (in_config_section st = true /\ 0 < current_root st
      /\ exists conf coeff weight,
           admits threshold line conf coeff weight
           /\ config_line threshold st line = store_config conf coeff weight st).
Proof.
  unfold config_line.
  destruct (in_config_section st) eqn:Hsec; simpl; [|by left].
  destruct (0 <? current_root st) eqn:Hroot; [|by left].
  apply Z.ltb_lt in Hroot.
  destruct (bool_decide (is_Some (re_match config_re_plain (PyStr.strip line)))) eqn:Hm;
    simpl; [|by left].
  apply bool_decide_eq_true_1, config_re_plain_iff in Hm. destruct Hm as [gs Hgs].
  destruct (config_re_four _ _ Hgs) as (conf_num & conf & g3 & g4 & ->).
  rewrite Hgs.
  destruct (String.length conf =? 14)%nat eqn:Hlen; simpl; [|by left].
  apply Nat.eqb_eq in Hlen.
  destruct (float_of_str g3) as [coeff|] eqn:H3; [|by left].
  destruct (float_of_str g4) as [w|] eqn:H4; [|by left].
  destruct (fge (fabs coeff) threshold) eqn:Hge; [|by left].
  right. repeat split; try done.
  exists conf, coeff, (fmul w (float_of_int 100)). split; [|done].
  by exists conf_num, g3, g4, w.
Qed.

Lemma config_line_admits threshold st line conf coeff weight :
  in_config_section st = true -> 0 < current_root st ->
  admits threshold line conf coeff weight ->
  config_line threshold st line = store_config conf coeff weight st.
Proof.
  intros Hsec Hroot (conf_num & g3 & g4 & w & Hgs & Hlen & H3 & H4 & -> & Hge).
  unfold config_line. rewrite Hsec. simpl.
  destruct (0 <? current_root st) eqn:E; [|apply Z.ltb_ge in E; lia].
  rewrite bool_decide_eq_true_2.
  2:{ apply config_re_plain_iff. by eexists. }
  simpl. rewrite Hgs, Hlen. simpl. by rewrite H3, H4, Hge.
Qed.

(** The section flag and the current root are out of reach of a line that
    is not a root start: the two section-end branches are never taken. *)
Lemma config_line_keeps_section threshold st line st' :
  config_line threshold st line = Ok st' ->
  in_config_section st' = in_config_section st
  /\ current_root st' = current_root st.
Proof.
  destruct (config_line_cases threshold st line)
    as [->|(_ & _ & conf & coeff & weight & _ & ->)].
  - by intros [= <-].
  - unfold store_config. destruct (roots st !! current_root st); [|done].
    by intros [= <-].
Qed.

Lemma store_config_Ok conf coeff weight st st' :
  store_config conf coeff weight st = Ok st' ->
  exists r, roots st !! current_root st = Some r
    /\ roots st' = <[current_root st := set_config conf weight r]> (roots st).
Proof.
  unfold store_config. destruct (roots st !! current_root st) as [r|]; [|done].
  intros [= <-]. by exists r.
Qed.

Lemma store_energy_Ok e st st' :
  store_energy e st = Ok st' ->
  exists r, roots st !! current_root st = Some r
    /\ roots st' = <[current_root st := set_energy e r]> (roots st)
    /\ current_root st' = current_root st
    /\ in_config_section st' = in_config_section st.
Proof.
  unfold store_energy. destruct (roots st !! current_root st) as [r|]; [|done].
  intros [= <-]. by exists r.
Qed.

(** The energy check leaves the collection as it is, or stores the energy
    that the line carries. *)
Lemma energy_capture_cases st next_line :
  match line_energy next_line with
  | None =>
      exists st', energy_capture st next_line = Ok st' /\ roots st' = roots st
        /\ current_root st' = current_root st
        /\ in_config_section st' = in_config_section st
  | Some e =>
      energy_capture st next_line
      = (st' ← store_energy e st; Ok (print (FoundCoefficients (current_root st')) st'))
  end.
Proof.
  unfold energy_capture, line_energy.
  destruct (PyStr.contains "energy=" next_line); [|by eexists].
  destruct (PyStr.split next_line !! 1%nat) as [tok|]; simpl; [|by eexists].
  destruct (float_of_str tok) as [e|]; [done|by eexists].
Qed.

(** What the energy check does to the record of each root. *)
Lemma energy_capture_lookup st next_line st' :
  energy_capture st next_line = Ok st' ->
  current_root st' = current_root st
  /\ in_config_section st' = in_config_section st
  /\ forall k, roots st' !! k
      = (fun r => match line_energy next_line with
                  | Some e => if Z.eqb (current_root st) k then set_energy e r else r
                  | None => r
                  end) <$> roots st !! k.
Proof.
  pose proof (energy_capture_cases st next_line) as H.
  destruct (line_energy next_line) as [e|].
  - rewrite H. destruct (store_energy e st) as [st1|] eqn:E; [|done]. simpl.
    intros [= <-]. apply store_energy_Ok in E as (r & Hr & Hroots & ? & ?).
    repeat split; try done. intros k. simpl. rewrite Hroots.
    destruct (Z.eqb_spec (current_root st) k) as [<-|Hne].
    + rewrite lookup_insert_eq, Hr. done.
    + rewrite lookup_insert_ne by done. by destruct (roots st !! k).
  - destruct H as (st1 & -> & Hroots & ? & ?). intros [= <-].
    repeat split; try done. intros k. rewrite Hroots. by destruct (roots st !! k).
Qed.

(** What a line that is not a root start does to the record of each root. *)
Lemma config_line_lookup threshold st line st' :
  config_line threshold st line = Ok st' ->
  st' = st
  \/ exists conf coeff weight,
       admits threshold line conf coeff weight
       /\ is_Some (roots st !! current_root st)
       /\ forall k, roots st' !! k
           = (fun r => if Z.eqb (current_root st) k
                       then set_config conf weight r else r) <$> roots st !! k.
Proof.
  destruct (config_line_cases threshold st line)
    as [->|(_ & _ & conf & coeff & weight & Hadm & ->)].
  - intros [= <-]. by left.
  - intros (r & Hr & Hroots)%store_config_Ok. right.
    exists conf, coeff, weight. split; [done|]. split; [by eexists|].
    intros k. rewrite Hroots.
    destruct (Z.eqb_spec (current_root st) k) as [<-|Hne].
    + by rewrite lookup_insert_eq, Hr.
    + rewrite lookup_insert_ne by done. by destruct (roots st !! k).
Qed.

End ParserFacts.

(** ** The loop *)

Section LoopFacts.
Context {F : PyFloat}.
Implicit Types (st : state) (line : string) (f : list string) (threshold : float).

Lemma loop_line threshold st line f :
  PyStr.contains root_start_phrase line = false ->
  loop threshold st (line :: f)
  = (st' ← config_line threshold st line; loop threshold st' f).
Proof. intros H. simpl. by rewrite H. Qed.

Lemma loop_root_start threshold st line next_line f k :
  PyStr.contains root_start_phrase line = true ->
  root_index line = Ok k ->
  loop threshold st (line :: next_line :: f)
  = (st' ← energy_capture (enter_root k st) next_line; loop threshold st' f).
Proof. intros H Hk. simpl. by rewrite H, Hk. Qed.

Lemma loop_root_start_last threshold st line k :
  PyStr.contains root_start_phrase line = true ->
  root_index line = Ok k ->
  loop threshold st [line] = Raise StopIteration.
Proof. intros H Hk. simpl. by rewrite H, Hk. Qed.

Lemma loop_root_index_raises threshold st line f e :
  PyStr.contains root_start_phrase line = true ->
  root_index line = Raise e ->
  loop threshold st (line :: f) = Raise e.
Proof. intros H Hk. simpl. by rewrite H, Hk. Qed.

(** Induction over the pass: [I] is kept by every iteration that returns,
    [R] holds of every exception an iteration raises, [Q] is what is known
    of the lines still to read. *)
Lemma loop_outcome threshold (I : state -> Prop) (R : exn -> Prop)
    (Q : list string -> Prop) :
  (forall line f, Q (line :: f) -> Q f) ->
  R StopIteration ->
  (forall st line f, I st -> Q (line :: f) ->
     PyStr.contains root_start_phrase line = false ->
     outcome_sat I R (config_line threshold st line)) ->
  (forall st line f, I st -> Q (line :: f) ->
     PyStr.contains root_start_phrase line = true ->
     outcome_sat
       (fun k => forall next_line f', f = next_line :: f' ->
                 outcome_sat I R (energy_capture (enter_root k st) next_line))
       R (root_index line)) ->
  forall f st, Q f -> I st -> outcome_sat I R (loop threshold st f).
Proof.
  intros Htail Hstop Hline Hroot f.
  remember (length f) as n eqn:Hn. revert f Hn.
  induction n as [n IH] using lt_wf_ind. intros f Hn st HQ HI.
  destruct f as [|line f']; [exact HI|].
  destruct (PyStr.contains root_start_phrase line) eqn:Hc.
  - specialize (Hroot st line f' HI HQ Hc).
    destruct (root_index line) as [k|e] eqn:Hk.
    + destruct f' as [|next_line f''].
      * by rewrite (loop_root_start_last _ _ _ k).
      * rewrite (loop_root_start _ _ _ _ _ k) by done.
        specialize (Hroot next_line f'' eq_refl).
        destruct (energy_capture (enter_root k st) next_line) as [st'|e]; [|done].
        simpl in *. apply (IH (length f'')); eauto. lia.
    + by rewrite (loop_root_index_raises _ _ _ _ e).
  - rewrite loop_line by done.
    specialize (Hline st line f' HI HQ Hc).
    destruct (config_line threshold st line) as [st'|e]; [|done].
    simpl in *. apply (IH (length f')); eauto. lia.
Qed.

(** Reading [f] to its end and then [g] is reading [f ++ g]. *)
Lemma loop_app threshold f g st st' :
  loop threshold st f = Ok st' ->
  loop threshold st (f ++ g) = loop threshold st' g.
Proof.
  remember (length f) as n eqn:Hn. revert f Hn st.
  induction n as [n IH] using lt_wf_ind. intros f Hn st.
  destruct f as [|line f']; [by intros [= <-]|].
  destruct (PyStr.contains root_start_phrase line) eqn:Hc.
  - destruct (root_index line) as [k|e] eqn:Hk.
    + destruct f' as [|next_line f''].
      * by rewrite (loop_root_start_last _ _ _ k).
      * simpl app. rewrite !(loop_root_start _ _ _ _ _ k) by done.
        destruct (energy_capture (enter_root k st) next_line) as [st1|]; [|done].
        simpl. apply (IH (length f'')); simpl in *; [lia|done].
    + by rewrite (loop_root_index_raises _ _ _ _ e).
  - simpl app. rewrite !loop_line by done.
    destruct (config_line threshold st line) as [st1|]; [|done].
    simpl. apply (IH (length f')); simpl in *; [lia|done].
Qed.

End LoopFacts.

(** ** The root count *)

Section RootCount.
Context {F : PyFloat}.
Implicit Types (st : state) (line : string) (f : list string) (threshold : float).

Lemma detect_num_roots_no_ciroot f :
  Forall (fun line => PyStr.contains "ciroot" (PyStr.lower line) = false) f ->
  detect_num_roots f = (None, [WarnNoCiroot]).
Proof.
  induction 1 as [|line f Hline _ IH]; simpl; [done|]. by rewrite Hline.
Qed.

(** C2.  On a text in which no line contains "ciroot", [detect_num_roots]
    prints the warning that announces the default of 7 but returns [None],
    not 7; [parse_ras_weights] then raises [TypeError] on [num_roots + 1]
    and reads no line of the text. *)
Theorem no_ciroot_type_error f threshold :
  Forall (fun line => PyStr.contains "ciroot" (PyStr.lower line) = false) f ->
  detect_num_roots f = (None, [WarnNoCiroot])
  /\ parse_ras_weights f threshold = Raise TypeError.
Proof.
  intros H. apply detect_num_roots_no_ciroot in H. split; [done|].
  unfold parse_ras_weights, parse_pass. by rewrite H.
Qed.

(** Outside a configuration section the lines that are not root starts are
    passed over. *)
Lemma loop_skip threshold st f g :
  in_config_section st = false ->
  Forall (fun line => PyStr.contains root_start_phrase line = false) f ->
  loop threshold st (f ++ g) = loop threshold st g.
Proof.
  intros Hsec. induction 1 as [|line f Hline _ IH]; [done|].
  simpl app. rewrite loop_line by done.
  unfold config_line. by rewrite Hsec.
Qed.

(** C3.  The root index of a root-start line is read outside any [try]:
    at the first root-start line whose last token is not an integer the
    pass raises [ValueError], and the lines after it are not read. *)
Theorem root_index_error_aborts f line rest tok threshold num_roots :
  fst (detect_num_roots (f ++ line :: rest)) = Some num_roots ->
  Forall (fun l => PyStr.contains root_start_phrase l = false) f ->
  PyStr.contains root_start_phrase line = true ->
  last (PyStr.split line) = Some tok ->
  PyStr.int tok = None ->
  parse_ras_weights (f ++ line :: rest) threshold = Raise ValueError.
Proof.
  intros Hn Hf Hline Htok Hint.
  unfold parse_ras_weights, parse_pass. rewrite Hn.
  rewrite loop_skip by done.
  rewrite (loop_root_index_raises _ _ _ _ ValueError); [done..|].
  unfold root_index. by rewrite Htok, Hint.
Qed.

End RootCount.

(** ** Sections and root starts *)

Section Sections.
Context {F : PyFloat}.
Implicit Types (st : state) (line : string) (f : list string) (threshold : float).

(** C1.  Inside a configuration section, a line that does not match the
    configuration pattern is skipped by the [continue] that precedes the
    section-end tests: also when it contains "Natural orbitals and
    occupation numbers", "----" or "====", the state is unchanged and
    [in_config_section] stays true. *)
Theorem section_end_not_reached threshold st line rest :
  in_config_section st = true ->
  0 < current_root st ->
  PyStr.contains root_start_phrase line = false ->
  re_match config_re_plain (PyStr.strip line) = None ->
  PyStr.contains "Natural orbitals and occupation numbers" line = true
  \/ PyStr.contains "----" line = true \/ PyStr.contains "====" line = true ->
  config_line threshold st line = Ok st
  /\ loop threshold st (line :: rest) = loop threshold st rest.
Proof.
  intros Hsec Hroot Hstart Hre _.
  assert (config_line threshold st line = Ok st) as Hline.
  { unfold config_line. rewrite Hsec, Hre. simpl.
    by destruct (0 <? current_root st). }
  split; [done|]. rewrite loop_line by done. by rewrite Hline.
Qed.

Lemma loop_pending_raises threshold line k f st :
  PyStr.contains root_start_phrase line = true ->
  root_index line = Ok k ->
  pending_root_start f = false ->
  completes (loop threshold st (f ++ [line])) = false.
Proof.
  intros Hline Hk.
  remember (length f) as n eqn:Hn. revert f Hn st.
  induction n as [n IH] using lt_wf_ind. intros f Hn st.
  destruct f as [|l f']; simpl app.
  - intros _. by rewrite (loop_root_start_last _ _ _ k).
  - cbn [pending_root_start].
    destruct (PyStr.contains root_start_phrase l) eqn:Hl.
    + destruct f' as [|next_line f'']; [done|]. intros Hp.
      destruct (root_index l) as [k'|e] eqn:Hk'.
      * simpl app. rewrite (loop_root_start _ _ _ _ _ k') by done.
        destruct (energy_capture (enter_root k' st) next_line) as [st'|]; [|done].
        simpl. apply (IH (length f'')); simpl in *; [lia|done..].
      * by rewrite (loop_root_index_raises _ _ _ _ e).
    + intros Hp. rewrite loop_line by done.
      destruct (config_line threshold st l) as [st'|]; [|done].
      simpl. apply (IH (length f')); simpl in *; [lia|done..].
Qed.

(** The line after a root start is read for its energy only. *)
Lemma energy_capture_ext st next1 next2 :
  PyStr.contains "energy=" next1 = PyStr.contains "energy=" next2 ->
  (PyStr.contains "energy=" next1 = true ->
   PyStr.split next1 !! 1%nat = PyStr.split next2 !! 1%nat) ->
  energy_capture st next1 = energy_capture st next2.
Proof.
  intros H1 H2. unfold energy_capture. rewrite <- H1.
  destruct (PyStr.contains "energy=" next1); [|done]. by rewrite H2.
Qed.

(** C10.  A root-start line here is a line that the loop takes as one: the
    lines before it have been read to their end.  When such a line, with an
    integer index, is the last of the text, [next(f)] finds no line and the
    pass ends with [StopIteration]; so does [parse_ras_weights].  And the
    line after a root start is read by the energy check alone: two such
    lines that agree on "energy=" and, when they contain it, on their
    second token give the same pass, whatever else they contain. *)
Theorem last_root_start_raises threshold f line k st0 st' st next1 next2 rest :
  loop threshold st0 f = Ok st' ->
  PyStr.contains root_start_phrase line = true ->
  root_index line = Ok k ->
  PyStr.contains "energy=" next1 = PyStr.contains "energy=" next2 ->
  (PyStr.contains "energy=" next1 = true ->
   PyStr.split next1 !! 1%nat = PyStr.split next2 !! 1%nat) ->
  loop threshold st0 (f ++ [line]) = Raise StopIteration
  /\ (forall num_roots,
        fst (detect_num_roots (f ++ [line])) = Some num_roots ->
        st0 = initial_state num_roots ->
        parse_ras_weights (f ++ [line]) threshold = Raise StopIteration)
  /\ loop threshold st (line :: next1 :: rest)
     = loop threshold st (line :: next2 :: rest).
Proof.
  intros Hf Hline Hk H1 H2.
  assert (loop threshold st0 (f ++ [line]) = Raise StopIteration) as Hstop.
  { rewrite (loop_app _ _ _ _ _ Hf). by apply (loop_root_start_last _ _ _ k). }
  split; [done|]. split.
  - intros n Hn ->. unfold parse_ras_weights, parse_pass. by rewrite Hn, Hstop.
  - rewrite !(loop_root_start _ _ _ _ _ k) by done.
    by rewrite (energy_capture_ext _ next1 next2).
Qed.

End Sections.

(** ** The collection of records *)

Section Collection.
Context {F : PyFloat}.
Implicit Types (st : state) (line : string) (f : list string) (threshold : float).

Lemma initial_roots_lookup num_roots k :
  initial_roots num_roots !! k
  = if bool_decide (1 <= k <= num_roots) then Some empty_record else None.
Proof.
  unfold initial_roots. case_bool_decide as Hk.
  - apply elem_of_list_to_map_1.
    + rewrite <- list_fmap_compose. simpl. rewrite list_fmap_id. apply NoDup_seqZ.
    + apply (list_elem_of_fmap_2 (fun i => (i, empty_record))). apply elem_of_seqZ. lia.
  - apply not_elem_of_list_to_map_1.
    rewrite <- list_fmap_compose. simpl. rewrite list_fmap_id.
    rewrite elem_of_seqZ. lia.
Qed.

Lemma root_index_not_KeyError line : root_index line <> Raise KeyError.
Proof.
  unfold root_index. destruct (last (PyStr.split line)) as [tok|]; [|done].
  by destruct (PyStr.int tok).
Qed.

(** The pass adds no index to the collection and removes none. *)
Lemma loop_keeps_indices threshold f st st' k :
  loop threshold st f = Ok st' ->
  is_Some (roots st' !! k) <-> is_Some (roots st !! k).
Proof.
  intros H.
  enough (outcome_sat (fun s => is_Some (roots s !! k) <-> is_Some (roots st !! k))
            (fun _ => True) (loop threshold st f)) as Hout
    by (by rewrite H in Hout).
  clear H. apply (loop_outcome threshold _ _ (fun _ => True)); try done.
  - intros s line g Hs _ _.
    destruct (config_line threshold s line) as [s'|] eqn:E; [|done]. simpl.
    apply config_line_lookup in E as [->|(? & ? & ? & _ & _ & Hk)]; [done|].
    rewrite <- Hs, Hk, fmap_is_Some. done.
  - intros s line g Hs _ _.
    destruct (root_index line) as [k'|]; [|done]. simpl.
    intros next_line g' _.
    destruct (energy_capture (enter_root k' s) next_line) as [s'|] eqn:E; [|done].
    simpl. apply energy_capture_lookup in E as (_ & _ & Hk).
    rewrite <- Hs, Hk, fmap_is_Some. done.
Qed.

(** While every root start names a root of the collection, nothing is
    stored for a root that has no record. *)
Lemma loop_in_range_no_KeyError threshold num_roots f st :
  (forall line k, line ∈ f -> PyStr.contains root_start_phrase line = true ->
     root_index line = Ok k -> 1 <= k <= num_roots) ->
  (forall k, is_Some (roots st !! k) <-> 1 <= k <= num_roots) ->
  (0 < current_root st -> current_root st <= num_roots) ->
  loop threshold st f <> Raise KeyError.
Proof.
  intros Hf Hdom Hcur.
  enough (outcome_sat
            (fun s => (forall k, is_Some (roots s !! k) <-> 1 <= k <= num_roots)
                      /\ (0 < current_root s -> current_root s <= num_roots))
            (fun e => e <> KeyError) (loop threshold st f)) as Hout
    by (destruct (loop threshold st f); simpl in Hout; congruence).
  apply (loop_outcome threshold _ _ (fun g => forall line, line ∈ g -> line ∈ f));
    try done.
  - intros line g Hg l Hl. apply Hg. by apply list_elem_of_further.
  - intros s line g [Hs Hc] _ _.
    destruct (config_line_cases threshold s line)
      as [->|(_ & Hpos & conf & coeff & weight & _ & E)]; [done|].
    rewrite E. unfold store_config.
    destruct (Hs (current_root s)) as [_ [r Hr]]; [lia|].
    rewrite Hr. simpl. split; [|done].
    intros k. rewrite <- Hs. rewrite lookup_insert_is_Some.
    split; [intros [<-|[_ ?]]; by eauto|]. intros ?.
    destruct (decide (current_root s = k)); by auto.
  - intros s line g [Hs Hc] Hg Hstart.
    destruct (root_index line) as [k|e] eqn:Hk; simpl.
    2:{ intros ->. by apply (root_index_not_KeyError line). }
    assert (1 <= k <= num_roots) as Hrange.
    { apply (Hf line); [|done..]. apply Hg, list_elem_of_here. }
    intros next_line g' _.
    pose proof (energy_capture_cases (enter_root k s) next_line) as Hcases.
    destruct (line_energy next_line) as [e|].
    + rewrite Hcases. unfold store_energy. simpl.
      destruct (Hs k) as [_ [r Hr]]; [done|]. rewrite Hr. simpl.
      split; [|lia]. intros k'. rewrite <- Hs, lookup_insert_is_Some.
      split; [intros [<-|[_ ?]]; by eauto|]. intros ?.
      destruct (decide (k = k')); by auto.
    + destruct Hcases as (s' & -> & Hroots & Hcur' & _). simpl.
      rewrite Hroots, Hcur'. simpl. split; [done|lia].
Qed.

(** C4, as amended.  No record is made for a root that [num_roots] does not
    cover: a completed pass returns exactly the indices 1..num_roots; while
    every root start stays within them no [KeyError] arises, whichever of
    them occur; and for a root without a record the first energy to store,
    or the first admitted configuration, ends the pass with [KeyError]. *)
Theorem roots_not_created_lazily f threshold num_roots :
  fst (detect_num_roots f) = Some num_roots ->
  (forall rs k, parse_ras_weights f threshold = Ok rs ->
     is_Some (rs !! k) <-> 1 <= k <= num_roots)
  /\ ((forall line k, line ∈ f -> PyStr.contains root_start_phrase line = true ->
         root_index line = Ok k -> 1 <= k <= num_roots) ->
      parse_ras_weights f threshold <> Raise KeyError)
  /\ (forall st line next_line rest k e,
        PyStr.contains root_start_phrase line = true ->
        root_index line = Ok k ->
        roots st !! k = None ->
        line_energy next_line = Some e ->
        loop threshold st (line :: next_line :: rest) = Raise KeyError)
  /\ (forall st line rest conf coeff weight,
        in_config_section st = true -> 0 < current_root st ->
        roots st !! current_root st = None ->
        PyStr.contains root_start_phrase line = false ->
        admits threshold line conf coeff weight ->
        loop threshold st (line :: rest) = Raise KeyError).
Proof.
  intros Hn.
  assert (forall k, is_Some (roots (initial_state num_roots) !! k)
                    <-> 1 <= k <= num_roots) as Hinit.
  { intros k. simpl. rewrite initial_roots_lookup.
    case_bool_decide; [by split; [|eauto]|]. split; [by intros [? ?]|done]. }
  split; [|split; [|split]].
  - intros rs k. unfold parse_ras_weights, parse_pass. rewrite Hn.
    destruct (loop threshold (initial_state num_roots) f) as [st|] eqn:E; [|done].
    simpl. intros [= <-]. rewrite <- Hinit. by eapply loop_keeps_indices.
  - intros Hf. unfold parse_ras_weights, parse_pass. rewrite Hn.
    pose proof (loop_in_range_no_KeyError threshold num_roots f
                  (initial_state num_roots) Hf Hinit) as H.
    destruct (loop threshold (initial_state num_roots) f); [done|].
    simpl. intros [= ->]. apply H; [simpl; lia|done].
  - intros st line next_line rest k e Hstart Hk Hnone He.
    rewrite (loop_root_start _ _ _ _ _ k) by done.
    pose proof (energy_capture_cases (enter_root k st) next_line) as Hcases.
    rewrite He in Hcases. rewrite Hcases. unfold store_energy. simpl.
    by rewrite Hnone.
  - intros st line rest conf coeff weight Hsec Hpos Hnone Hstart Hadm.
    rewrite loop_line by done.
    rewrite (config_line_admits _ _ _ conf coeff weight) by done.
    unfold store_config. by rewrite Hnone.
Qed.

End Collection.

(** ** What the records hold *)

Section Records.
Context {F : PyFloat}.
Implicit Types (st : state) (line : string) (f : list string) (threshold : float).

(** C5.  Every configuration string that a completed pass has recorded for
    a root has length 14 and was admitted by a line of the text: the line
    matches the configuration pattern with that string as second field, its
    coefficient satisfies [abs(coeff) >= threshold], and the stored weight
    is its fourth field times 100. *)
Theorem recorded_configs_admitted f threshold rs k r conf weight :
  parse_ras_weights f threshold = Ok rs ->
  rs !! k = Some r ->
  configs r !! conf = Some weight ->
  String.length conf = 14%nat
  /\ exists line coeff, line ∈ f /\ admits threshold line conf coeff weight.
Proof.
  set (P := fun (c : string) (w : float) =>
    String.length c = 14%nat
    /\ exists line coeff, line ∈ f /\ admits threshold line c coeff w).
  set (I := fun s : state => forall k r c w,
    roots s !! k = Some r -> configs r !! c = Some w -> P c w).
  unfold parse_ras_weights, parse_pass.
  destruct (fst (detect_num_roots f)) as [num_roots|]; [|done].
  destruct (loop threshold (initial_state num_roots) f) as [st|] eqn:E; [|done].
  simpl. intros [= <-] Hr Hc.
  enough (outcome_sat I (fun _ => True) (loop threshold (initial_state num_roots) f))
    as Hout by (rewrite E in Hout; exact (Hout k r conf weight Hr Hc)).
  clear. apply (loop_outcome threshold _ _ (fun g => forall line, line ∈ g -> line ∈ f));
    try done.
  - intros line g Hg l Hl. apply Hg. by apply list_elem_of_further.
  - intros s line g Hs Hg _.
    destruct (config_line threshold s line) as [s'|] eqn:E; [|done]. simpl.
    apply config_line_lookup in E as [->|(conf & coeff & weight & Hadm & _ & Hk)];
      [done|].
    intros k r c w. rewrite Hk.
    destruct (roots s !! k) as [r0|] eqn:Hr0; [|done]. simpl. intros [= <-].
    destruct (current_root s =? k); [|by apply (Hs k)].
    simpl. destruct (decide (conf = c)) as [<-|Hne].
    + rewrite lookup_insert_eq. intros [= <-]. split.
      * by destruct Hadm as (? & ? & ? & ? & _ & ? & _).
      * exists line, coeff. split; [|done]. apply Hg, list_elem_of_here.
    + rewrite lookup_insert_ne by done. by apply (Hs k).
  - intros s line g Hs _ _.
    destruct (root_index line) as [k'|]; [|done]. simpl.
    intros next_line g' _.
    destruct (energy_capture (enter_root k' s) next_line) as [s'|] eqn:E; [|done].
    simpl. apply energy_capture_lookup in E as (_ & _ & Hk).
    intros k r c w. rewrite Hk. simpl.
    destruct (roots s !! k) as [r0|] eqn:Hr0; [|done]. simpl. intros [= <-].
    destruct (line_energy next_line); [|by apply (Hs k)].
    destruct (k' =? k); simpl; by apply (Hs k).
  - intros k r c w. simpl. rewrite initial_roots_lookup.
    case_bool_decide; [|done]. by intros [= <-].
Qed.

Lemma loop_energy threshold k f st st' r :
  loop threshold st f = Ok st' ->
  roots st !! k = Some r ->
  exists r', roots st' !! k = Some r'
             /\ energy r' = last_energy k (energy r) f.
Proof.
  remember (length f) as n eqn:Hn. revert f Hn st r.
  induction n as [n IH] using lt_wf_ind. intros f Hn st r.
  destruct f as [|line f'].
  - intros [= <-] Hr. by exists r.
  - cbn [last_energy].
    destruct (PyStr.contains root_start_phrase line) eqn:Hstart.
    + destruct (root_index line) as [k'|e] eqn:Hk'.
      2:{ by rewrite (loop_root_index_raises _ _ _ _ e). }
      destruct f' as [|next_line f''].
      { by rewrite (loop_root_start_last _ _ _ k'). }
      rewrite (loop_root_start _ _ _ _ _ k') by done.
      destruct (energy_capture (enter_root k' st) next_line) as [st1|] eqn:E; [|done].
      simpl. intros Hloop Hr.
      apply energy_capture_lookup in E as (_ & _ & Hk).
      specialize (Hk k). simpl in Hk. rewrite Hr in Hk. simpl in Hk.
      destruct (IH (length f'') ltac:(simpl in *; lia) f'' eq_refl _ _ Hloop Hk)
        as (r' & Hr' & He).
      exists r'. split; [done|]. rewrite He. f_equal.
      destruct (line_energy next_line); [|done]. by destruct (k' =? k).
    + rewrite loop_line by done.
      destruct (config_line threshold st line) as [st1|] eqn:E; [|done].
      simpl. intros Hloop Hr.
      assert (exists r1, roots st1 !! k = Some r1 /\ energy r1 = energy r)
        as (r1 & Hr1 & He1).
      { apply config_line_lookup in E as [->|(? & ? & ? & _ & _ & Hk)]; [by exists r|].
        rewrite Hk, Hr. simpl. eexists. split; [done|].
        by destruct (current_root st =? k). }
      destruct (IH (length f') ltac:(simpl in *; lia) f' eq_refl _ _ Hloop Hr1)
        as (r' & Hr' & He).
      exists r'. split; [done|]. by rewrite He, He1.
Qed.

(** C6, as amended.  After a completed pass the energy of a root is the one
    of the last root start for it whose next line carries an energy: every
    such block sets it again, a later one replacing the value of an earlier
    one, and it is unset ([None]) when there is no such block. *)
Theorem energy_is_last_parsed f threshold rs k r :
  parse_ras_weights f threshold = Ok rs ->
  rs !! k = Some r ->
  energy r = last_energy k None f.
Proof.
  unfold parse_ras_weights, parse_pass.
  destruct (fst (detect_num_roots f)) as [num_roots|]; [|done].
  destruct (loop threshold (initial_state num_roots) f) as [st|] eqn:E; [|done].
  simpl. intros [= <-] Hr.
  assert (is_Some (roots (initial_state num_roots) !! k)) as [r0 Hr0].
  { apply (proj1 (loop_keeps_indices _ _ _ _ k E)). by eexists. }
  destruct (loop_energy _ k _ _ _ _ E Hr0) as (r' & Hr' & He).
  rewrite Hr in Hr'. injection Hr' as <-. rewrite He. f_equal.
  simpl in Hr0. rewrite initial_roots_lookup in Hr0.
  case_bool_decide; [|done]. by injection Hr0 as <-.
Qed.

End Records.

(** ** Raising the threshold *)

Section Threshold.
Context {F : PyFloat} {O : PyFloatOrder F}.
Implicit Types (st : state) (line : string) (f : list string) (threshold : float).

Lemma admits_lower t1 t2 line conf coeff weight :
  fle t1 t2 = true ->
  admits t2 line conf coeff weight -> admits t1 line conf coeff weight.
Proof.
  intros Hle (conf_num & g3 & g4 & w & ? & ? & ? & ? & ? & Hge).
  exists conf_num, g3, g4, w. repeat split; try done.
  unfold fge in *. by apply (fle_trans t1 t2).
Qed.

Lemma covers_refl st : covers st st.
Proof.
  repeat split. intros k. by destruct (roots st !! k).
Qed.

Lemma energy_capture_covers st1 st2 next_line s1 :
  covers st1 st2 ->
  energy_capture st1 next_line = Ok s1 ->
  exists s2, energy_capture st2 next_line = Ok s2 /\ covers s1 s2.
Proof.
  intros (Hcur & Hsec & Hroots) E1.
  assert (exists s2, energy_capture st2 next_line = Ok s2) as [s2 E2].
  { pose proof (energy_capture_cases st1 next_line) as H1.
    pose proof (energy_capture_cases st2 next_line) as H2.
    destruct (line_energy next_line) as [e|]; [|destruct H2 as (s2 & ? & _); by exists s2].
    rewrite H2. rewrite H1 in E1. unfold store_energy in *.
    specialize (Hroots (current_root st1)). rewrite <- Hcur.
    destruct (roots st1 !! current_root st1); [|done].
    destruct (roots st2 !! current_root st1); [|done]. by eexists. }
  exists s2. split; [done|].
  apply energy_capture_lookup in E1 as (Hc1 & Hs1 & Hk1).
  apply energy_capture_lookup in E2 as (Hc2 & Hs2 & Hk2).
  split; [congruence|]. split; [congruence|].
  intros k. rewrite Hk1, Hk2, <- Hcur. specialize (Hroots k).
  destruct (roots st1 !! k) as [r1|], (roots st2 !! k) as [r2|]; simpl; try done.
  destruct (line_energy next_line); [|done].
  by destruct (current_root st1 =? k).
Qed.

Lemma config_line_covers t1 t2 st1 st2 line s1 :
  fle t1 t2 = true ->
  covers st1 st2 ->
  config_line t1 st1 line = Ok s1 ->
  exists s2, config_line t2 st2 line = Ok s2 /\ covers s1 s2.
Proof.
  intros Hle (Hcur & Hsec & Hroots) E1.
  destruct (config_line_cases t2 st2 line)
    as [E2|(Hsec2 & Hpos2 & conf & coeff & weight & Hadm & E2)].
  - exists st2. split; [done|].
    destruct (config_line_keeps_section _ _ _ _ E1) as [Hs1 Hc1].
    split; [congruence|]. split; [congruence|].
    apply config_line_lookup in E1 as [->|(c & ? & w & _ & _ & Hk)]; [done|].
    intros k. rewrite Hk. specialize (Hroots k).
    destruct (roots st1 !! k) as [r1|], (roots st2 !! k) as [r2|]; simpl; try done.
    destruct (current_root st1 =? k); [|done]. simpl.
    rewrite dom_insert_L. by apply union_subseteq_r'.
  - rewrite (config_line_admits t1 st1 line conf coeff weight) in E1;
      [|congruence|lia|by eapply admits_lower].
    rewrite E2. unfold store_config in *.
    pose proof (Hroots (current_root st1)) as Hcr. rewrite <- Hcur.
    destruct (roots st1 !! current_root st1) as [r1|] eqn:Hr1; [|done].
    destruct (roots st2 !! current_root st1) as [r2|] eqn:Hr2; [|done].
    injection E1 as <-. eexists. split; [done|].
    split; [done|]. split; [done|]. simpl. intros k.
    destruct (decide (current_root st1 = k)) as [<-|Hne].
    + rewrite !lookup_insert_eq. simpl. rewrite !dom_insert_L.
      by apply union_mono_l.
    + rewrite !lookup_insert_ne by done. apply Hroots.
Qed.

Lemma loop_covers t1 t2 f st1 st2 s1 :
  fle t1 t2 = true ->
  covers st1 st2 ->
  loop t1 st1 f = Ok s1 ->
  exists s2, loop t2 st2 f = Ok s2 /\ covers s1 s2.
Proof.
  intros Hle.
  remember (length f) as n eqn:Hn. revert f Hn st1 st2.
  induction n as [n IH] using lt_wf_ind. intros f Hn st1 st2 Hcov.
  destruct f as [|line f'].
  - intros [= <-]. by exists st2.
  - destruct (PyStr.contains root_start_phrase line) eqn:Hstart.
    + destruct (root_index line) as [k|e] eqn:Hk.
      2:{ by rewrite (loop_root_index_raises _ _ _ _ e). }
      destruct f' as [|next_line f''].
      { by rewrite (loop_root_start_last _ _ _ k). }
      rewrite !(loop_root_start _ _ _ _ _ k) by done.
      destruct (energy_capture (enter_root k st1) next_line) as [s1'|] eqn:E1; [|done].
      simpl. intros Hloop.
      destruct (energy_capture_covers (enter_root k st1) (enter_root k st2)
                  next_line s1') as (s2' & -> & Hcov'); [|done|].
      { destruct Hcov as (_ & _ & ?). by repeat split. }
      simpl. apply (IH (length f'')) with (st1 := s1'); simpl in *; [lia|done..].
    + rewrite !loop_line by done.
      destruct (config_line t1 st1 line) as [s1'|] eqn:E1; [|done].
      simpl. intros Hloop.
      destruct (config_line_covers t1 t2 st1 st2 line s1') as (s2' & -> & Hcov');
        [done..|].
      simpl. apply (IH (length f')) with (st1 := s1'); simpl in *; [lia|done..].
Qed.

(** C8, as amended.  For thresholds [t1 <= t2]: when the pass with [t1]
    completes, so does the pass with [t2] on the same text, and for every
    root the configuration strings recorded with [t2] are among those
    recorded with [t1]. *)
Theorem threshold_monotone f t1 t2 rs1 :
  fle t1 t2 = true ->
  parse_ras_weights f t1 = Ok rs1 ->
  exists rs2, parse_ras_weights f t2 = Ok rs2
    /\ forall k r2, rs2 !! k = Some r2 ->
         exists r1, rs1 !! k = Some r1 /\ dom (configs r2) ⊆ dom (configs r1).
Proof.
  intros Hle. unfold parse_ras_weights, parse_pass.
  destruct (fst (detect_num_roots f)) as [num_roots|]; [|done].
  destruct (loop t1 (initial_state num_roots) f) as [s1|] eqn:E1; [|done].
  simpl. intros [= <-].
  destruct (loop_covers t1 t2 f _ (initial_state num_roots) s1 Hle
              (covers_refl _) E1) as (s2 & -> & (_ & _ & Hroots)).
  simpl. eexists. split; [done|]. intros k r2 Hr2.
  specialize (Hroots k). rewrite Hr2 in Hroots.
  destruct (roots s1 !! k) as [r1|]; [|done]. by exists r1.
Qed.

End Threshold.

(** ** The parser as a function of the text *)

Section Purity.
Context {F : PyFloat}.
Implicit Types (st : state) (line : string) (f : list string) (threshold : float).

Lemma alike_bind (o1 o2 : outcome state) (k1 k2 : state -> outcome state) :
  alike o1 o2 ->
  (forall s1 s2, same_but_printed s1 s2 -> alike (k1 s1) (k2 s2)) ->
  alike (o1 ≫= k1) (o2 ≫= k2).
Proof.
  destruct o1 as [s1|e1], o2 as [s2|e2]; simpl; try done. intros H Hk. by apply Hk.
Qed.

(** What has been printed has no part in what a line does. *)
Lemma config_line_alike threshold st1 st2 line :
  same_but_printed st1 st2 ->
  alike (config_line threshold st1 line) (config_line threshold st2 line).
Proof.
  destruct st1 as [r1 c1 n1 b1 p1], st2 as [r2 c2 n2 b2 p2].
  intros (Hr & Hc & Hn & Hb). simpl in *. subst.
  unfold config_line, store_config. simpl.
  repeat (case_match; simpl; try done).
Qed.

Lemma energy_capture_alike st1 st2 next_line :
  same_but_printed st1 st2 ->
  alike (energy_capture st1 next_line) (energy_capture st2 next_line).
Proof.
  destruct st1 as [r1 c1 n1 b1 p1], st2 as [r2 c2 n2 b2 p2].
  intros (Hr & Hc & Hn & Hb). simpl in *. subst.
  unfold energy_capture, store_energy. simpl.
  repeat (case_match; simpl; try done).
Qed.

Lemma loop_alike threshold f st1 st2 :
  same_but_printed st1 st2 ->
  alike (loop threshold st1 f) (loop threshold st2 f).
Proof.
  remember (length f) as n eqn:Hn. revert f Hn st1 st2.
  induction n as [n IH] using lt_wf_ind. intros f Hn st1 st2 Hst.
  destruct f as [|line f']; [done|].
  destruct (PyStr.contains root_start_phrase line) eqn:Hstart.
  - destruct (root_index line) as [k|e] eqn:Hk.
    2:{ by rewrite !(loop_root_index_raises _ _ _ _ e). }
    destruct f' as [|next_line f''].
    { by rewrite !(loop_root_start_last _ _ _ k). }
    rewrite !(loop_root_start _ _ _ _ _ k) by done.
    apply alike_bind.
    + apply energy_capture_alike. destruct Hst as (? & ? & ? & ?). by repeat split.
    + intros s1 s2 Hs. apply (IH (length f'')); simpl in *; [lia|done..].
  - rewrite !loop_line by done. apply alike_bind.
    + by apply config_line_alike.
    + intros s1 s2 Hs. apply (IH (length f')); simpl in *; [lia|done..].
Qed.

(** A call on a file that holds [text] ends as [parse_ras_weights text]
    does, and leaves the files as they are. *)
Lemma parse_ras_weights_io_result (w : world) log_file text threshold :
  files w !! log_file = Some text ->
  result_is (parse_ras_weights_io w log_file threshold)
            (parse_ras_weights text threshold)
  /\ forall rs w', parse_ras_weights_io w log_file threshold = Returned rs w' ->
                   files w' = files w.
Proof.
  intros Hfile. unfold parse_ras_weights_io, parse_ras_weights, parse_pass.
  rewrite Hfile. destruct (detect_num_roots text) as [[n|] out]; simpl; [|done].
  rewrite Hfile.
  pose proof (loop_alike threshold text
                (State (initial_roots n) 0 0 false (stdout w ++ out))
                (initial_state n)) as H.
  destruct (loop threshold (State (initial_roots n) 0 0 false (stdout w ++ out)) text)
    as [s1|e1], (loop threshold (initial_state n) text) as [s2|e2]; simpl in *.
  - split; [by apply H|]. by intros rs w' [= <- <-].
  - by destruct H.
  - by destruct H.
  - split; [by apply H|done].
Qed.

Lemma result_is_same (o1 o2 : io_outcome) r :
  result_is o1 r -> result_is o2 r -> same_result o1 o2.
Proof.
  destruct o1, o2, r; simpl; try done; congruence.
Qed.

(** C9.  The collection that a call of the parser returns, or the exception
    that it raises, is a function of the text of the file and of the
    threshold: it is that of [parse_ras_weights] on the text; two calls on
    files with the same text end alike, whatever the names of the files,
    the other files and the output before them; and a call leaves the
    files as they are, so that a second call after it ends as the first. *)
Theorem parse_function_of_text (w1 w2 : world) name1 name2 text threshold :
  files w1 !! name1 = Some text ->
  files w2 !! name2 = Some text ->
  result_is (parse_ras_weights_io w1 name1 threshold)
            (parse_ras_weights text threshold)
  /\ same_result (parse_ras_weights_io w1 name1 threshold)
                 (parse_ras_weights_io w2 name2 threshold)
  /\ forall rs w',
       parse_ras_weights_io w1 name1 threshold = Returned rs w' ->
       files w' = files w1
       /\ same_result (parse_ras_weights_io w' name1 threshold) (Returned rs w').
Proof.
  intros H1 H2.
  destruct (parse_ras_weights_io_result w1 name1 text threshold H1) as [Hr1 Hf1].
  destruct (parse_ras_weights_io_result w2 name2 text threshold H2) as [Hr2 _].
  split; [done|]. split; [by eapply result_is_same|].
  intros rs w' Hw'. pose proof (Hf1 rs w' Hw') as Hfiles. split; [done|].
  assert (files w' !! name1 = Some text) as H1' by (by rewrite Hfiles).
  destruct (parse_ras_weights_io_result w' name1 text threshold H1') as [Hr' _].
  apply (result_is_same _ _ (parse_ras_weights text threshold)); [done|].
  by rewrite <- Hw'.
Qed.

End Purity.

(** ** The energy header *)

Section Header.
Context {F : PyFloat}.

(** C7.  For a root that has a record whose energy is unset, ['energy'] is
    a key of the record, so the default ["N/A"] of [get] is not used: the
    header formats [None].  The planar line then shows "None", and no
    energy difference is written. *)
Theorem unset_energy_shown_as_None threshold planar_roots nonplanar_roots root r :
  planar_roots !! root = Some r ->
  energy r = None ->
  report_header threshold planar_roots nonplanar_roots root !! 1%nat
  = Some [Lit "p-NDP Energy (Hartree): "; Str PyNone; Lit PyStr.nl]
  /\ energy_difference_lines (get_energy planar_roots root PyNone)
                             (get_energy nonplanar_roots root PyNone) = [].
Proof.
  intros Hr He. unfold report_header, get_energy. rewrite Hr, He. done.
Qed.

(** An energy of zero is present and yet counts as false in the condition:
    the energy difference is not written. *)
Lemma zero_energy_no_difference planar_roots nonplanar_roots root r x :
  planar_roots !! root = Some r ->
  energy r = Some x ->
  float_bool x = false ->
  energy_difference_lines (get_energy planar_roots root PyNone)
                          (get_energy nonplanar_roots root PyNone) = [].
Proof.
  intros Hr He Hx. unfold energy_difference_lines, get_energy.
  rewrite Hr, He. simpl. by rewrite Hx.
Qed.

(** With both energies set and not zero, the difference written is
    [(nonplanar_energy - planar_energy) * 27.2114], to four decimals. *)
Lemma energy_difference_written planar_roots nonplanar_roots root rp rn p np :
  planar_roots !! root = Some rp -> energy rp = Some p ->
  nonplanar_roots !! root = Some rn -> energy rn = Some np ->
  float_bool p = true -> float_bool np = true ->
  energy_difference_lines (get_energy planar_roots root PyNone)
                          (get_energy nonplanar_roots root PyNone)
  = [[Lit "Energy Difference (eV): ";
      Fixed 4 (fmul (fsub np p) lit_27_2114); Lit PyStr.nl]].
Proof.
  intros Hp Hep Hn Hen Hbp Hbn. unfold energy_difference_lines, get_energy.
  rewrite Hp, Hep, Hn, Hen. simpl. by rewrite Hbp, Hbn.
Qed.

End Header.

(** * The parser on double precision floats *)

Section Binary64Facts.
Import Binary64.

Lemma SFleb_trans (x y z : spec_float) :
  SFleb x y = true -> SFleb y z = true -> SFleb x z = true.
Proof.
  unfold SFleb, SFcompare.
  destruct x as [sx|sx| |sx mx ex], y as [sy|sy| |sy my ey], z as [sz|sz| |sz mz ez];
    try destruct sx; try destruct sy; try destruct sz; try done;
    change (Pos.compare_cont Eq) with Pos.compare;
    repeat match goal with
           | |- context [Z.compare ?a ?b] => destruct (Z.compare_spec a b)
           | |- context [Pos.compare ?a ?b] => destruct (Pos.compare_spec a b)
           end; simpl; try done; lia.
Qed.

#[export] Instance binary64_order : PyFloatOrder binary64.
Proof. constructor. exact SFleb_trans. Qed.

End Binary64Facts.

Section Binary64Runs.
Import Binary64 Samples MoreSamples.

(** The sample with one root, at threshold 0.2: the energy is read, the
    configuration with coefficient -0.950 is kept with weight 90.2, the one
    with coefficient 0.100 is left out. *)
Example parse_log_one_root :
  parse_ras_weights log_one_root threshold_02
  = Ok {[ 1 := Root {[ "22222220u00000" := literal "90.2" ]}
                    (Some (literal "-100.123456")) ]}.
Proof. reflexivity. Qed.

Example detect_num_roots_ciroot :
  fst (detect_num_roots (F := binary64) ["ciroot = 7 7 1" +:+ PyStr.nl]) = Some 7.
Proof. reflexivity. Qed.

Example re_match_backtracks :
  re_match [group_plus PyStr.is_digit; group_plus occ_char] "12" = Some ["1"; "2"].
Proof. reflexivity. Qed.

(** After the lines that should end the section, a line of another table
    is still recorded for root 1. *)
Example parse_log_after_section :
  configs (record (parsed log_after_section threshold_02) 1) !! "222222200u0000"
  = Some (literal "25.0").
Proof. reflexivity. Qed.

Lemma section_end_not_reached_witness :
  (in_config_section in_root_1 = true
   /\ 0 < current_root in_root_1
   /\ PyStr.contains root_start_phrase natural_orbitals_line = false
   /\ re_match config_re_plain (PyStr.strip natural_orbitals_line) = None
   /\ (PyStr.contains "Natural orbitals and occupation numbers" natural_orbitals_line = true
       \/ PyStr.contains "----" natural_orbitals_line = true
       \/ PyStr.contains "====" natural_orbitals_line = true))
  /\ (config_line threshold_02 in_root_1 natural_orbitals_line = Ok in_root_1
      /\ loop threshold_02 in_root_1 [natural_orbitals_line; config_line_1]
         = loop threshold_02 in_root_1 [config_line_1]).
Proof.
  assert (in_config_section in_root_1 = true) as H1 by reflexivity.
  assert (0 < current_root in_root_1) as H2 by reflexivity.
  assert (PyStr.contains root_start_phrase natural_orbitals_line = false) as H3
    by reflexivity.
  assert (re_match config_re_plain (PyStr.strip natural_orbitals_line) = None) as H4
    by reflexivity.
  assert (PyStr.contains "Natural orbitals and occupation numbers" natural_orbitals_line = true
          \/ PyStr.contains "----" natural_orbitals_line = true
          \/ PyStr.contains "====" natural_orbitals_line = true) as H5
    by (left; reflexivity).
  split; [by repeat split|].
  exact (section_end_not_reached threshold_02 in_root_1 natural_orbitals_line
           [config_line_1] H1 H2 H3 H4 H5).
Defined.

Lemma no_ciroot_type_error_witness :
  Forall (fun line => PyStr.contains "ciroot" (PyStr.lower line) = false) log_no_ciroot
  /\ (detect_num_roots (F := binary64) log_no_ciroot = (None, [WarnNoCiroot])
      /\ parse_ras_weights log_no_ciroot threshold_02 = Raise TypeError).
Proof.
  assert (Forall (fun line => PyStr.contains "ciroot" (PyStr.lower line) = false)
                 log_no_ciroot) as H
    by (repeat constructor).
  split; [exact H|]. exact (no_ciroot_type_error log_no_ciroot threshold_02 H).
Defined.

Lemma root_index_error_aborts_witness :
  (fst (detect_num_roots (F := binary64) log_bad_root_index) = Some 1
   /\ Forall (fun l => PyStr.contains root_start_phrase l = false)
             (take 1 log_bad_root_index)
   /\ PyStr.contains root_start_phrase bad_root_start_line = true
   /\ last (PyStr.split bad_root_start_line) = Some "1:"
   /\ PyStr.int "1:" = None)
  /\ parse_ras_weights log_bad_root_index threshold_02 = Raise ValueError.
Proof.
  assert (fst (detect_num_roots (F := binary64) log_bad_root_index) = Some 1) as H1
    by reflexivity.
  assert (Forall (fun l => PyStr.contains root_start_phrase l = false)
                 (take 1 log_bad_root_index)) as H2 by (repeat constructor).
  assert (PyStr.contains root_start_phrase bad_root_start_line = true) as H3
    by reflexivity.
  assert (last (PyStr.split bad_root_start_line) = Some "1:") as H4 by reflexivity.
  assert (PyStr.int "1:" = None) as H5 by reflexivity.
  split; [by repeat split|].
  exact (root_index_error_aborts (take 1 log_bad_root_index) bad_root_start_line
           (drop 2 log_bad_root_index) "1:" threshold_02 1 H1 H2 H3 H4 H5).
Defined.

(** One root was announced and the text has a block for root 2: its
    configuration line ends the pass with [KeyError]; so does its energy. *)
Lemma extra_root_raises_KeyError :
  fst (detect_num_roots (F := binary64) log_extra_root) = Some 1
  /\ parse_ras_weights log_extra_root threshold_02 = Raise KeyError.
Proof. split; reflexivity. Qed.

Example extra_root_energy_raises_KeyError :
  parse_ras_weights log_extra_root_energy threshold_02 = Raise KeyError.
Proof. reflexivity. Qed.

Lemma roots_not_created_lazily_witness :
  fst (detect_num_roots (F := binary64) log_one_root) = Some 1
  /\ ((forall rs k, parse_ras_weights log_one_root threshold_02 = Ok rs ->
         is_Some (rs !! k) <-> 1 <= k <= 1)
      /\ ((forall line k, line ∈ log_one_root ->
             PyStr.contains root_start_phrase line = true ->
             root_index line = Ok k -> 1 <= k <= 1) ->
          parse_ras_weights log_one_root threshold_02 <> Raise KeyError)
      /\ (forall (st : @state binary64) line next_line rest k e,
            PyStr.contains root_start_phrase line = true ->
            root_index line = Ok k ->
            roots st !! k = None ->
            line_energy next_line = Some e ->
            loop threshold_02 st (line :: next_line :: rest) = Raise KeyError)
      /\ (forall (st : @state binary64) line rest conf coeff weight,
            in_config_section st = true -> 0 < current_root st ->
            roots st !! current_root st = None ->
            PyStr.contains root_start_phrase line = false ->
            admits threshold_02 line conf coeff weight ->
            loop threshold_02 st (line :: rest) = Raise KeyError)).
Proof.
  assert (fst (detect_num_roots (F := binary64) log_one_root) = Some 1) as H
    by reflexivity.
  split; [exact H|].
  exact (roots_not_created_lazily log_one_root threshold_02 1 H).
Defined.

Lemma recorded_configs_admitted_witness :
  (parse_ras_weights log_one_root threshold_02 = Ok (parsed log_one_root threshold_02)
   /\ parsed log_one_root threshold_02 !! 1
      = Some (record (parsed log_one_root threshold_02) 1)
   /\ configs (record (parsed log_one_root threshold_02) 1) !! "22222220u00000"
      = Some (literal "90.2"))
  /\ (String.length "22222220u00000" = 14%nat
      /\ exists line coeff,
           line ∈ log_one_root
           /\ admits threshold_02 line "22222220u00000" coeff (literal "90.2")).
Proof.
  assert (parse_ras_weights log_one_root threshold_02
          = Ok (parsed log_one_root threshold_02)) as H1 by reflexivity.
  assert (parsed log_one_root threshold_02 !! 1
          = Some (record (parsed log_one_root threshold_02) 1)) as H2 by reflexivity.
  assert (configs (record (parsed log_one_root threshold_02) 1) !! "22222220u00000"
          = Some (literal "90.2")) as H3 by reflexivity.
  split; [by repeat split|].
  exact (recorded_configs_admitted log_one_root threshold_02 _ 1 _
           "22222220u00000" (literal "90.2") H1 H2 H3).
Defined.

(** Two blocks for root 1: the energy found first is -1.0, the energy of
    the record after the pass is -2.0. *)
Lemma later_block_changes_energy :
  parse_ras_weights log_two_blocks threshold_02
  = Ok (parsed log_two_blocks threshold_02)
  /\ line_energy ("      energy=    -1.0" +:+ PyStr.nl) = Some (literal "-1.0")
  /\ energy (record (parsed log_two_blocks threshold_02) 1) = Some (literal "-2.0")
  /\ energy (record (parsed log_two_blocks threshold_02) 1) <> Some (literal "-1.0").
Proof. repeat split; try reflexivity. discriminate. Qed.

Lemma energy_is_last_parsed_witness :
  (parse_ras_weights log_two_blocks threshold_02
   = Ok (parsed log_two_blocks threshold_02)
   /\ parsed log_two_blocks threshold_02 !! 1
      = Some (record (parsed log_two_blocks threshold_02) 1))
  /\ energy (record (parsed log_two_blocks threshold_02) 1)
     = last_energy 1 None log_two_blocks.
Proof.
  assert (parse_ras_weights log_two_blocks threshold_02
          = Ok (parsed log_two_blocks threshold_02)) as H1 by reflexivity.
  assert (parsed log_two_blocks threshold_02 !! 1
          = Some (record (parsed log_two_blocks threshold_02) 1)) as H2 by reflexivity.
  split; [by split|].
  exact (energy_is_last_parsed log_two_blocks threshold_02 _ 1 _ H1 H2).
Defined.

Example last_energy_two_blocks :
  last_energy 1 None log_two_blocks = Some (literal "-2.0").
Proof. reflexivity. Qed.

(** The report of root 1 for two logs without an energy line is written:
    there is a configuration to show. *)
Example report_emitted_no_energy :
  all_confs (parsed log_no_energy threshold_02) (parsed log_no_energy threshold_02) 1
  = {[ "22222220u00000" ]}.
Proof. reflexivity. Qed.

Lemma unset_energy_shown_as_None_witness :
  (parsed log_no_energy threshold_02 !! 1
   = Some (record (parsed log_no_energy threshold_02) 1)
   /\ energy (record (parsed log_no_energy threshold_02) 1) = None)
  /\ (report_header threshold_02 (parsed log_no_energy threshold_02)
        (parsed log_no_energy threshold_02) 1 !! 1%nat
      = Some [Lit "p-NDP Energy (Hartree): "; Str PyNone; Lit PyStr.nl]
      /\ energy_difference_lines
           (get_energy (parsed log_no_energy threshold_02) 1 PyNone)
           (get_energy (parsed log_no_energy threshold_02) 1 PyNone) = []).
Proof.
  assert (parsed log_no_energy threshold_02 !! 1
          = Some (record (parsed log_no_energy threshold_02) 1)) as H1 by reflexivity.
  assert (energy (record (parsed log_no_energy threshold_02) 1) = None) as H2
    by reflexivity.
  split; [by split|].
  exact (unset_energy_shown_as_None threshold_02 _ _ 1 _ H1 H2).
Defined.

(** Both energies are present, one of them is 0.0: no difference line. *)
Example zero_energy_header :
  energy (record (parsed log_zero_energy threshold_02) 1) = Some (literal "0.0")
  /\ energy (record (parsed log_one_root threshold_02) 1) = Some (literal "-100.123456")
  /\ report_header threshold_02 (parsed log_zero_energy threshold_02)
       (parsed log_one_root threshold_02) 1
     = [ [Lit "Coefficient threshold: |c| >= "; Str (PyFloatV threshold_02);
          Lit PyStr.nl];
         [Lit "p-NDP Energy (Hartree): "; Str (PyFloatV (literal "0.0")); Lit PyStr.nl];
         [Lit "NDP Energy (Hartree): "; Str (PyFloatV (literal "-100.123456"));
          Lit PyStr.nl];
         [Lit PyStr.nl] ].
Proof. repeat split; reflexivity. Qed.

Lemma threshold_monotone_witness :
  (fle threshold_005 threshold_02 = true
   /\ parse_ras_weights log_one_root threshold_005
      = Ok (parsed log_one_root threshold_005))
  /\ exists rs2, parse_ras_weights log_one_root threshold_02 = Ok rs2
       /\ forall k r2, rs2 !! k = Some r2 ->
            exists r1, parsed log_one_root threshold_005 !! k = Some r1
                       /\ dom (configs r2) ⊆ dom (configs r1).
Proof.
  assert (fle threshold_005 threshold_02 = true) as H1 by reflexivity.
  assert (parse_ras_weights log_one_root threshold_005
          = Ok (parsed log_one_root threshold_005)) as H2 by reflexivity.
  split; [by split|].
  exact (threshold_monotone (O := binary64_order) log_one_root
           threshold_005 threshold_02 _ H1 H2).
Defined.

Example threshold_removes_config :
  dom (configs (record (parsed log_one_root threshold_005) 1))
  = {[ "22222220u00000"; "2222222u000000" ]}
  /\ dom (configs (record (parsed log_one_root threshold_02) 1))
     = {[ "22222220u00000" ]}.
Proof. split; reflexivity. Qed.

(** A last line that contains the phrase and is taken by [next(f)] after
    a root start is not read as a root start: the pass completes. *)
Example consumed_last_line_completes :
  last log_ends_with_root_start = Some root_start_line
  /\ pending_root_start (take 2 log_ends_with_root_start) = true
  /\ completes (parse_ras_weights log_ends_with_root_start threshold_02) = true.
Proof. repeat split; reflexivity. Qed.

Lemma last_root_start_raises_witness :
  (loop threshold_02 (initial_state 1) log_one_root
   = Ok (state_of (loop threshold_02 (initial_state 1) log_one_root) (initial_state 1))
   /\ PyStr.contains root_start_phrase root_start_line = true
   /\ root_index root_start_line = Ok 1
   /\ PyStr.contains "energy=" config_line_1
      = PyStr.contains "energy=" root_start_line
   /\ (PyStr.contains "energy=" config_line_1 = true ->
       PyStr.split config_line_1 !! 1%nat = PyStr.split root_start_line !! 1%nat))
  /\ (loop threshold_02 (initial_state 1) (log_one_root ++ [root_start_line])
      = Raise StopIteration
      /\ (forall num_roots,
            fst (detect_num_roots (log_one_root ++ [root_start_line])) = Some num_roots ->
            initial_state 1 = initial_state num_roots ->
            parse_ras_weights (log_one_root ++ [root_start_line]) threshold_02
            = Raise StopIteration)
      /\ loop threshold_02 in_root_1 [root_start_line; config_line_1; config_line_1]
         = loop threshold_02 in_root_1 [root_start_line; root_start_line; config_line_1]).
Proof.
  assert (loop threshold_02 (initial_state 1) log_one_root
          = Ok (state_of (loop threshold_02 (initial_state 1) log_one_root)
                         (initial_state 1))) as H0 by reflexivity.
  assert (PyStr.contains root_start_phrase root_start_line = true) as H1 by reflexivity.
  assert (root_index root_start_line = Ok 1) as H2 by reflexivity.
  assert (PyStr.contains "energy=" config_line_1
          = PyStr.contains "energy=" root_start_line) as H4 by reflexivity.
  assert (PyStr.contains "energy=" config_line_1 = true ->
          PyStr.split config_line_1 !! 1%nat = PyStr.split root_start_line !! 1%nat)
    as H5.
  { intros H. change (false = true) in H. discriminate H. }
  split; [exact (conj H0 (conj H1 (conj H2 (conj H4 H5))))|].
  exact (last_root_start_raises threshold_02 log_one_root root_start_line 1
           (initial_state 1) _ in_root_1 config_line_1 root_start_line
           [config_line_1] H0 H1 H2 H4 H5).
Defined.

(** The text with the root start appended: the parser ends with
    [StopIteration]. *)
Example parse_last_root_start :
  parse_ras_weights (log_one_root ++ [root_start_line]) threshold_02
  = Raise StopIteration.
Proof. reflexivity. Qed.

(** C8, the claim as stated.  With one root announced, a block for root 2
    holds a line of coefficient 0.100: at threshold 0.05 the line is
    admitted and the pass ends with [KeyError], so that nothing is recorded,
    while at threshold 0.2 the pass completes and has recorded a
    configuration for root 1. *)
Lemma lower_threshold_raises :
  fle threshold_005 threshold_02 = true
  /\ parse_ras_weights log_low_extra_root threshold_005 = Raise KeyError
  /\ parse_ras_weights log_low_extra_root threshold_02
     = Ok (parsed log_low_extra_root threshold_02)
  /\ configs (record (parsed log_low_extra_root threshold_02) 1) !! "222222200u0000"
     = Some (literal "49.0").
Proof. repeat split; reflexivity. Qed.

Lemma parse_function_of_text_witness :
  (files world_1 !! "flat.log" = Some log_one_root
   /\ files world_2 !! "runs/bent.log" = Some log_one_root)
  /\ (result_is (parse_ras_weights_io world_1 "flat.log" threshold_02)
                (parse_ras_weights log_one_root threshold_02)
      /\ same_result (parse_ras_weights_io world_1 "flat.log" threshold_02)
                     (parse_ras_weights_io world_2 "runs/bent.log" threshold_02)
      /\ forall rs w',
           parse_ras_weights_io world_1 "flat.log" threshold_02 = Returned rs w' ->
           files w' = files world_1
           /\ same_result (parse_ras_weights_io w' "flat.log" threshold_02)
                          (Returned rs w')).
Proof.
  assert (files world_1 !! "flat.log" = Some log_one_root) as H1 by reflexivity.
  assert (files world_2 !! "runs/bent.log" = Some log_one_root) as H2 by reflexivity.
  split; [by split|].
  exact (parse_function_of_text world_1 world_2 "flat.log" "runs/bent.log"
           log_one_root threshold_02 H1 H2).
Defined.

(** The two worlds differ in what was printed before and in their other
    files; the calls print differently and return the same collection. *)
Example parse_in_two_worlds :
  stdout world_1 <> stdout world_2
  /\ files world_1 <> files world_2
  /\ (exists rs w1 w2,
        parse_ras_weights_io world_1 "flat.log" threshold_02 = Returned rs w1
        /\ parse_ras_weights_io world_2 "runs/bent.log" threshold_02 = Returned rs w2
        /\ stdout w1 <> stdout w2)
  /\ parse_ras_weights_io world_1 "bent.log" threshold_02 = NoSuchFile.
Proof.
  split; [discriminate|]. split.
  { intros H. apply (f_equal (fun m => m !! "two.log")) in H. discriminate H. }
  split; [|reflexivity].
  eexists _, _, _. split; [reflexivity|]. split; [reflexivity|]. discriminate.
Qed.

End Binary64Runs.

(** * Further properties *)

(** ** The pattern, field by field *)

Section Fields.

Lemma span_take_drop p s :
  take_chars (String.length (fst (PyStr.span p s))) s = fst (PyStr.span p s)
  /\ drop_chars (String.length (fst (PyStr.span p s))) s = snd (PyStr.span p s).
Proof.
  induction s as [|c s [IH1 IH2]]; simpl; [done|].
  destruct (p c); [|done].
  destruct (PyStr.span p s) as [a b]. simpl in *. by rewrite IH1, IH2.
Qed.

Lemma span_all_chars p s : all_chars p (fst (PyStr.span p s)) = true.
Proof.
  unfold all_chars. induction s as [|c s IH]; simpl; [done|].
  destruct (p c) eqn:Hc; [|done].
  destruct (PyStr.span p s) as [a b]. simpl in *. by rewrite Hc, IH.
Qed.

Lemma drop_chars_in_run p s n :
  (n < String.length (fst (PyStr.span p s)))%nat ->
  exists c s', drop_chars n s = String c s' /\ p c = true.
Proof.
  revert n. induction s as [|c s IH]; intros n; simpl; [lia|].
  destruct (p c) eqn:Hc; [|simpl; lia].
  destruct (PyStr.span p s) as [a b] eqn:Hs. simpl in *. intros Hn.
  destruct n as [|n]; [by exists c, s|]. apply IH. lia.
Qed.

Lemma backtrack_below_run a k s n :
  (forall c s', cls a c = true -> k (String c s') = None) ->
  (n < String.length (fst (PyStr.span (cls a) s)))%nat ->
  backtrack a k n s = None.
Proof.
  intros Hk. induction n as [|n IH]; intros Hn.
  - destruct (drop_chars_in_run _ _ _ Hn) as (c & s' & Hd & Hc).
    cbn [backtrack]. rewrite Hd, (Hk c s' Hc). by destruct (at_least a <=? 0)%nat.
  - destruct (drop_chars_in_run _ _ _ Hn) as (c & s' & Hd & Hc).
    cbn [backtrack]. rewrite Hd, (Hk c s' Hc).
    destruct (at_least a <=? S n)%nat; apply IH; lia.
Qed.

(** When what follows cannot start with a character of the class, the
    repetition keeps its longest run or fails: nothing is given back. *)
Lemma backtrack_longest_run a k s :
  (forall c s', cls a c = true -> k (String c s') = None) ->
  backtrack a k (String.length (fst (PyStr.span (cls a) s))) s
  = if (at_least a <=? String.length (fst (PyStr.span (cls a) s)))%nat then
      match k (snd (PyStr.span (cls a) s)) with
      | Some gs => Some (if captured a then fst (PyStr.span (cls a) s) :: gs else gs)
      | None => None
      end
    else None.
Proof.
  intros Hk. destruct (span_take_drop (cls a) s) as [Ht Hd].
  pose proof (backtrack_below_run a k s) as Hbelow.
  destruct (String.length (fst (PyStr.span (cls a) s))) as [|n] eqn:Hn.
  - cbn [backtrack]. rewrite Ht, Hd.
    destruct (at_least a <=? 0)%nat; [|done].
    by destruct (k (snd (PyStr.span (cls a) s))).
  - cbn [backtrack]. rewrite Ht, Hd.
    destruct (at_least a <=? S n)%nat.
    + destruct (k (snd (PyStr.span (cls a) s))); [done|]. apply Hbelow; [done|lia].
    + apply Hbelow; [done|lia].
Qed.

Lemma backtrack_last a gs0 s n :
  backtrack a (fun _ => Some gs0) n s
  = if (at_least a <=? n)%nat
    then Some (if captured a then take_chars n s :: gs0 else gs0) else None.
Proof.
  induction n as [|n IH]; cbn [backtrack].
  - by destruct (at_least a <=? 0)%nat.
  - destruct (at_least a <=? S n)%nat eqn:E; [done|].
    rewrite IH. apply Nat.leb_gt in E.
    destruct (at_least a <=? n)%nat eqn:E'; [|done]. apply Nat.leb_le in E'. lia.
Qed.

Lemma re_match_wrong_start b pattern c s :
  (1 <= at_least b)%nat -> cls b c = false ->
  re_match (b :: pattern) (String c s) = None.
Proof.
  intros Hb Hc. unfold re_match; fold re_match. simpl PyStr.span. rewrite Hc.
  simpl. destruct (at_least b <=? 0)%nat eqn:E; [|done]. apply Nat.leb_le in E. lia.
Qed.

Lemma space_not_field c :
  PyStr.is_space c = true ->
  PyStr.is_digit c = false /\ occ_char c = false
  /\ signed_char c = false /\ decimal_char c = false.
Proof.
  destruct c as [[] [] [] [] [] [] [] []]; intros H; try discriminate H;
    repeat split; reflexivity.
Qed.

Lemma field_not_space c :
  PyStr.is_digit c = true \/ occ_char c = true \/ signed_char c = true ->
  PyStr.is_space c = false.
Proof.
  destruct (PyStr.is_space c) eqn:E; [|done].
  destruct (space_not_field c E) as (H1 & H2 & H3 & _). rewrite H1, H2, H3.
  by intros [|[|]].
Qed.

Lemma field_length p s :
  field p s
  = if (1 <=? String.length (fst (PyStr.span p s)))%nat
    then Some (PyStr.span p s) else None.
Proof.
  unfold field. destruct (PyStr.span p s) as [a b]. simpl. by destruct a.
Qed.

Lemma re_match_star p pattern s :
  (forall c s', p c = true -> re_match pattern (String c s') = None) ->
  re_match (star p :: pattern) s = re_match pattern (snd (PyStr.span p s)).
Proof.
  intros Hk. unfold re_match; fold re_match.
  rewrite (backtrack_longest_run (star p)) by exact Hk. simpl.
  by destruct (re_match pattern (snd (PyStr.span p s))).
Qed.

Lemma re_match_plus p cap pattern s :
  (forall c s', p c = true -> re_match pattern (String c s') = None) ->
  re_match (Atom p 1 cap :: pattern) s
  = ('(g, rest) ← field p s;
     gs ← re_match pattern rest;
     Some (if cap then g :: gs else gs)).
Proof.
  intros Hk. unfold re_match; fold re_match.
  rewrite (backtrack_longest_run (Atom p 1 cap)) by exact Hk.
  rewrite field_length. cbn [at_least captured cls].
  destruct (1 <=? String.length (fst (PyStr.span p s)))%nat; [|done].
  destruct (PyStr.span p s) as [g rest]. simpl.
  by destruct (re_match pattern rest).
Qed.

Lemma re_match_plus_last p cap s :
  re_match [Atom p 1 cap] s
  = ('(g, _) ← field p s; Some (if cap then [g] else [])).
Proof.
  unfold re_match. rewrite backtrack_last, field_length. cbn [at_least captured cls].
  destruct (1 <=? String.length (fst (PyStr.span p s)))%nat; [|done].
  rewrite (proj1 (span_take_drop p s)).
  by destruct (PyStr.span p s).
Qed.

Lemma re_match_config_re s : re_match config_re s = config_fields s.
Proof.
  unfold config_re, config_fields, group_plus, plus.
  rewrite re_match_star.
  2:{ intros c s' Hc. apply re_match_wrong_start; [done|].
      by destruct (space_not_field c Hc). }
  rewrite re_match_plus.
  2:{ intros c s' Hc. apply re_match_wrong_start; [done|].
      simpl. apply field_not_space. by left. }
  destruct (field PyStr.is_digit (snd (PyStr.span PyStr.is_space s)))
    as [[g1 s1]|]; [simpl|done].
  rewrite re_match_plus.
  2:{ intros c s' Hc. apply re_match_wrong_start; [done|].
      by destruct (space_not_field c Hc) as (_ & ? & _). }
  destruct (field PyStr.is_space s1) as [[w1 s2]|]; [simpl|done].
  rewrite re_match_plus.
  2:{ intros c s' Hc. apply re_match_wrong_start; [done|].
      simpl. apply field_not_space. by right; left. }
  destruct (field occ_char s2) as [[g2 s3]|]; [simpl|done].
  rewrite re_match_plus.
  2:{ intros c s' Hc. apply re_match_wrong_start; [done|].
      by destruct (space_not_field c Hc) as (_ & _ & ? & _). }
  destruct (field PyStr.is_space s3) as [[w2 s4]|]; [simpl|done].
  rewrite re_match_plus.
  2:{ intros c s' Hc. apply re_match_wrong_start; [done|].
      simpl. apply field_not_space. by right; right. }
  destruct (field signed_char s4) as [[g3 s5]|]; [simpl|done].
  rewrite re_match_plus.
  2:{ intros c s' Hc. apply re_match_wrong_start; [done|].
      by destruct (space_not_field c Hc) as (_ & _ & _ & ?). }
  destruct (field PyStr.is_space s5) as [[w3 s6]|]; [simpl|done].
  rewrite re_match_plus_last.
  by destruct (field decimal_char s6) as [[g4 s7]|].
Qed.

(** X3.  The configuration pattern never gives characters back: it matches
    exactly when the string, after optional whitespace, consists of a run
    of digits, whitespace, a run of digits, [u], [d] and [*], whitespace, a
    run of [-], digits and [.], whitespace and a run of digits and [.],
    each run not empty, and its groups are those runs taken as long as
    they go. *)
Theorem config_re_fields s : re_match config_re s = config_fields s.
Proof. exact (re_match_config_re s). Qed.

Lemma field_Some p s g rest :
  field p s = Some (g, rest) -> g = fst (PyStr.span p s) /\ g <> EmptyString.
Proof.
  unfold field. destruct (PyStr.span p s) as [a b]. simpl.
  destruct a; simpl; [done|]. by intros [= <- <-].
Qed.

(** The second group of a match is made of digits, [u], [d] and [*]. *)
Lemma config_re_conf_chars s conf_num conf g3 g4 :
  re_match config_re s = Some [conf_num; conf; g3; g4] ->
  all_chars occ_char conf = true.
Proof.
  rewrite re_match_config_re. unfold config_fields.
  destruct (field PyStr.is_digit _) as [[g1 s1]|]; [simpl|done].
  destruct (field PyStr.is_space s1) as [[w1 s2]|]; [simpl|done].
  destruct (field occ_char s2) as [[g2 s3]|] eqn:E2; [simpl|done].
  destruct (field PyStr.is_space s3) as [[w2 s4]|]; [simpl|done].
  destruct (field signed_char s4) as [[g3' s5]|]; [simpl|done].
  destruct (field PyStr.is_space s5) as [[w3 s6]|]; [simpl|done].
  destruct (field decimal_char s6) as [[g4' s7]|]; [simpl|done].
  intros [= <- <- <- <-]. apply field_Some in E2 as [-> _]. apply span_all_chars.
Qed.

End Fields.

(** ** More on the pass *)

Section Pass.
Context {F : PyFloat}.
Implicit Types (st : state) (line : string) (f : list string) (threshold : float).

Lemma outcome_bind_Ok {A B} (a : A) (k : A -> outcome B) : (Ok a ≫= k) = k a.
Proof. done. Qed.

(** What holds of every admitted line holds of every recorded
    configuration. *)
Lemma loop_configs_inv threshold (P : string -> float -> Prop) f st st' :
  (forall line conf coeff weight,
     line ∈ f -> admits threshold line conf coeff weight -> P conf weight) ->
  (forall k r c w, roots st !! k = Some r -> configs r !! c = Some w -> P c w) ->
  loop threshold st f = Ok st' ->
  forall k r c w, roots st' !! k = Some r -> configs r !! c = Some w -> P c w.
Proof.
  intros Hadm Hst E.
  enough (outcome_sat
            (fun s => forall k r c w,
               roots s !! k = Some r -> configs r !! c = Some w -> P c w)
            (fun _ => True) (loop threshold st f)) as Hout
    by (by rewrite E in Hout).
  clear E. apply (loop_outcome threshold _ _ (fun g => forall line, line ∈ g -> line ∈ f));
    try done.
  - intros line g Hg l Hl. apply Hg. by apply list_elem_of_further.
  - intros s line g Hs Hg _.
    destruct (config_line threshold s line) as [s'|] eqn:E; [|done]. simpl.
    apply config_line_lookup in E as [->|(conf & coeff & weight & Ha & _ & Hk)];
      [done|].
    intros k r c w. rewrite Hk.
    destruct (roots s !! k) as [r0|] eqn:Hr0; [|done]. simpl. intros [= <-].
    destruct (current_root s =? k); [|by apply (Hs k)].
    simpl. destruct (decide (conf = c)) as [<-|Hne].
    + rewrite lookup_insert_eq. intros [= <-].
      apply (Hadm line conf coeff weight); [|done]. apply Hg, list_elem_of_here.
    + rewrite lookup_insert_ne by done. by apply (Hs k).
  - intros s line g Hs _ _.
    destruct (root_index line) as [k'|]; [|done]. simpl.
    intros next_line g' _.
    destruct (energy_capture (enter_root k' s) next_line) as [s'|] eqn:E; [|done].
    simpl. apply energy_capture_lookup in E as (_ & _ & Hk).
    intros k r c w. rewrite Hk. simpl.
    destruct (roots s !! k) as [r0|] eqn:Hr0; [|done]. simpl. intros [= <-].
    destruct (line_energy next_line); [|by apply (Hs k)].
    destruct (k' =? k); simpl; by apply (Hs k).
Qed.

Lemma initial_roots_configs num_roots k r c w :
  initial_roots num_roots !! k = Some r -> configs r !! c = Some w -> False.
Proof.
  rewrite initial_roots_lookup. case_bool_decide; [|done]. by intros [= <-].
Qed.

Lemma parse_configs_chars f threshold rs k r conf weight :
  parse_ras_weights f threshold = Ok rs ->
  rs !! k = Some r ->
  configs r !! conf = Some weight ->
  all_chars occ_char conf = true.
Proof.
  unfold parse_ras_weights, parse_pass.
  destruct (fst (detect_num_roots f)) as [num_roots|]; [|done].
  destruct (loop threshold (initial_state num_roots) f) as [st|] eqn:E; [|done].
  simpl. intros [= <-].
  apply (loop_configs_inv threshold (fun c _ => all_chars occ_char c = true)
           f (initial_state num_roots) st); [| |done].
  - intros line c coeff w _ (conf_num & g3 & g4 & w0 & Hm & _).
    by eapply config_re_conf_chars.
  - intros k' r' c w Hr Hc. by destruct (initial_roots_configs _ _ _ _ _ Hr Hc).
Qed.

(** X4.  Every configuration string that a completed pass has recorded is
    made of digits, [u], [d] and [*] only. *)
Theorem recorded_configs_alphabet f threshold rs k r conf weight :
  parse_ras_weights f threshold = Ok rs ->
  rs !! k = Some r ->
  configs r !! conf = Some weight ->
  all_chars occ_char conf = true.
Proof. apply parse_configs_chars. Qed.

(** The indices of the collection that the parser returns. *)
Lemma parse_indices f threshold rs num_roots k :
  fst (detect_num_roots f) = Some num_roots ->
  parse_ras_weights f threshold = Ok rs ->
  is_Some (rs !! k) <-> 1 <= k <= num_roots.
Proof.
  intros Hn. unfold parse_ras_weights, parse_pass. rewrite Hn.
  destruct (loop threshold (initial_state num_roots) f) as [st|] eqn:E; [|done].
  simpl. intros [= <-]. rewrite (loop_keeps_indices _ _ _ _ k E).
  simpl. rewrite initial_roots_lookup.
  case_bool_decide; [by split; [|eauto]|]. split; [by intros [? ?]|done].
Qed.

(** X5.  A text with a root count and no root-start line is read to its end
    without a change: the parser returns the records of roots
    1..num_roots, all empty and without energy. *)
Theorem no_root_start_initial_roots f threshold num_roots :
  fst (detect_num_roots f) = Some num_roots ->
  Forall (fun line => PyStr.contains root_start_phrase line = false) f ->
  parse_ras_weights f threshold = Ok (initial_roots num_roots).
Proof.
  intros Hn Hf. unfold parse_ras_weights, parse_pass. rewrite Hn.
  rewrite <- (app_nil_r f). by rewrite loop_skip.
Qed.

Lemma config_line_in_range threshold num_roots st line :
  in_range num_roots st ->
  exists st', config_line threshold st line = Ok st' /\ in_range num_roots st'.
Proof.
  intros [Hs Hc].
  destruct (config_line_cases threshold st line)
    as [->|(_ & Hpos & conf & coeff & weight & _ & ->)]; [by exists st|].
  unfold store_config.
  destruct (Hs (current_root st)) as [_ [r Hr]]; [lia|].
  rewrite Hr. eexists. split; [done|]. split; [|done]. simpl.
  intros k. rewrite <- Hs, lookup_insert_is_Some.
  split; [intros [<-|[_ ?]]; by eauto|]. intros ?.
  destruct (decide (current_root st = k)); by auto.
Qed.

Lemma energy_capture_in_range num_roots st k next_line :
  in_range num_roots st -> 1 <= k <= num_roots ->
  exists st', energy_capture (enter_root k st) next_line = Ok st'
              /\ in_range num_roots st'.
Proof.
  intros [Hs Hc] Hk.
  pose proof (energy_capture_cases (enter_root k st) next_line) as Hcases.
  destruct (line_energy next_line) as [e|].
  - rewrite Hcases. unfold store_energy. simpl.
    destruct (Hs k) as [_ [r Hr]]; [done|]. rewrite Hr. simpl.
    eexists. split; [done|]. split; simpl; [|lia].
    intros k'. rewrite <- Hs, lookup_insert_is_Some.
    split; [intros [<-|[_ ?]]; by eauto|]. intros ?.
    destruct (decide (k = k')); by auto.
  - destruct Hcases as (s' & -> & Hroots & Hcur' & _).
    exists s'. split; [done|]. split; [by rewrite Hroots|].
    rewrite Hcur'. simpl. lia.
Qed.

Lemma loop_well_formed threshold num_roots f st :
  in_range num_roots st ->
  well_formed num_roots f = true ->
  exists st', loop threshold st f = Ok st'.
Proof.
  remember (length f) as n eqn:Hn. revert f Hn st.
  induction n as [n IH] using lt_wf_ind. intros f Hn st Hst.
  destruct f as [|line f']; [by exists st|].
  cbn [well_formed].
  destruct (PyStr.contains root_start_phrase line) eqn:Hstart.
  - destruct (root_index line) as [k|] eqn:Hk; [|done].
    destruct f' as [|next_line f'']; [done|].
    intros [[H1 H2]%andb_prop Hwf]%andb_prop.
    rewrite (loop_root_start _ _ _ _ _ k) by done.
    destruct (energy_capture_in_range num_roots st k next_line) as (st' & -> & Hst');
      [done|lia|].
    simpl. apply (IH (length f'')); simpl in *; [lia|done..].
  - intros Hwf. rewrite loop_line by done.
    destruct (config_line_in_range threshold num_roots st line Hst) as (st' & -> & Hst').
    simpl. apply (IH (length f')); simpl in *; [lia|done..].
Qed.

(** X6.  When the text gives a root count, and every root start that the
    loop reads has an integer index within 1..num_roots and a line after
    it, the parser raises no exception: it returns a collection. *)
Theorem well_formed_completes f threshold num_roots :
  fst (detect_num_roots f) = Some num_roots ->
  well_formed num_roots f = true ->
  exists rs, parse_ras_weights f threshold = Ok rs.
Proof.
  intros Hn Hwf. unfold parse_ras_weights, parse_pass. rewrite Hn.
  destruct (loop_well_formed threshold num_roots f (initial_state num_roots))
    as (st & ->); [|done|by eexists].
  split; [|simpl; lia]. intros k. simpl. rewrite initial_roots_lookup.
  case_bool_decide; [by split; [|eauto]|]. split; [by intros [? ?]|done].
Qed.

(** X7.  A text can be read in two parts: when the loop reads [f] to its
    end, the pass over [f ++ g] is the pass over [g] from the state that [f]
    leaves. *)
Theorem loop_two_parts threshold f g st st' :
  loop threshold st f = Ok st' ->
  loop threshold st (f ++ g) = loop threshold st' g.
Proof. apply loop_app. Qed.

(** X8.  A line that is not a root start and that the threshold does not
    admit (no match, a second field not of length 14, a number that does
    not parse, a coefficient below the threshold) has no effect: the pass
    is the same without it.  So has any such line outside a block. *)
Theorem unadmitted_line_ignored threshold st line rest :
  PyStr.contains root_start_phrase line = false ->
  in_config_section st = false \/ current_root st <= 0
  \/ (forall conf coeff weight, ~ admits threshold line conf coeff weight) ->
  loop threshold st (line :: rest) = loop threshold st rest.
Proof.
  intros Hstart H. rewrite loop_line by done.
  destruct (config_line_cases threshold st line)
    as [->|(Hsec & Hpos & conf & coeff & weight & Hadm & _)]; [done|].
  destruct H as [H|[H|H]]; [congruence|lia|]. by destruct (H conf coeff weight).
Qed.

(** X9.  Recording overwrites: when two admitted lines of a block carry
    the same configuration string, the record keeps the weight of the
    second, as if the first had not been there, and no other entry
    changes. *)
Theorem later_weight_wins threshold st l1 l2 rest conf c1 w1 c2 w2 r :
  in_config_section st = true -> 0 < current_root st ->
  roots st !! current_root st = Some r ->
  PyStr.contains root_start_phrase l1 = false ->
  PyStr.contains root_start_phrase l2 = false ->
  admits threshold l1 conf c1 w1 ->
  admits threshold l2 conf c2 w2 ->
  exists st', loop threshold st (l1 :: l2 :: rest) = loop threshold st' rest
    /\ roots st' = <[current_root st := set_config conf w2 r]> (roots st)
    /\ current_root st' = current_root st
    /\ in_config_section st' = true.
Proof.
  intros Hsec Hpos Hr Hs1 Hs2 Ha1 Ha2.
  destruct (store_config conf c1 w1 st) as [st1|] eqn:E1;
    [|unfold store_config in E1; by rewrite Hr in E1].
  pose proof E1 as (r1 & Hr1 & Hroots1)%store_config_Ok.
  assert (current_root st1 = current_root st /\ in_config_section st1 = true)
    as [Hcur1 Hsec1].
  { unfold store_config in E1. rewrite Hr in E1. by injection E1 as <-. }
  rewrite loop_line by done.
  rewrite (config_line_admits _ _ _ conf c1 w1), E1 by done.
  rewrite outcome_bind_Ok, loop_line by done.
  rewrite (config_line_admits _ _ _ conf c2 w2) by (done || lia).
  unfold store_config. rewrite Hcur1, Hroots1, lookup_insert_eq, outcome_bind_Ok.
  eexists. split; [done|]. simpl. split; [|done].
  rewrite insert_insert_eq. rewrite Hr in Hr1. injection Hr1 as <-.
  unfold set_config. simpl. by rewrite insert_insert_eq.
Qed.

(** X10.  The line after a root start never ends the pass when it carries
    no energy: without "energy=", with "energy=" and no second token, or
    with a second token that is not a float, the collection is unchanged
    and the block of that root begins, also for a root that has no
    record. *)
Theorem no_energy_begins_block threshold st line next_line rest k :
  PyStr.contains root_start_phrase line = true ->
  root_index line = Ok k ->
  line_energy next_line = None ->
  exists st', loop threshold st (line :: next_line :: rest) = loop threshold st' rest
    /\ roots st' = roots st
    /\ current_root st' = k
    /\ in_config_section st' = true.
Proof.
  intros Hstart Hk He. rewrite (loop_root_start _ _ _ _ _ k) by done.
  pose proof (energy_capture_cases (enter_root k st) next_line) as H.
  rewrite He in H. destruct H as (st' & -> & ? & ? & ?). by exists st'.
Qed.

(** X11.  The pass never leaves a configuration section: once
    [in_config_section] is true it is true at the end of the pass. *)
Theorem section_never_left threshold f st st' :
  in_config_section st = true ->
  loop threshold st f = Ok st' ->
  in_config_section st' = true.
Proof.
  intros Hsec E.
  enough (outcome_sat (fun s => in_config_section s = true) (fun _ => True)
            (loop threshold st f)) as Hout
    by (by rewrite E in Hout).
  clear E. apply (loop_outcome threshold _ _ (fun _ => True)); try done.
  - intros s line g Hs _ _.
    destruct (config_line threshold s line) as [s'|] eqn:E; [|done]. simpl.
    apply config_line_keeps_section in E as [-> _]. done.
  - intros s line g Hs _ _.
    destruct (root_index line) as [k'|]; [|done]. simpl.
    intros next_line g' _.
    destruct (energy_capture (enter_root k' s) next_line) as [s'|] eqn:E; [|done].
    simpl. by apply energy_capture_lookup in E as (_ & -> & _).
Qed.

End Pass.

(** ** More on the root count *)

Section Count.
Context {F : PyFloat}.

(** X1.  [detect_num_roots] returns [None] exactly when no line of the
    text contains "ciroot", in whatever case. *)
Theorem detect_none_iff (f : list string) :
  fst (detect_num_roots f) = None
  <-> Forall (fun line => PyStr.contains "ciroot" (PyStr.lower line) = false) f.
Proof.
  split; [|intros H; by rewrite detect_num_roots_no_ciroot].
  induction f as [|line f IH]; [done|]. simpl.
  destruct (PyStr.contains "ciroot" (PyStr.lower line)) eqn:Hc.
  - destruct (PyStr.split line !! 2%nat) as [tok|]; [|done].
    by destruct (PyStr.int tok).
  - intros H. constructor; [done|]. by apply IH.
Qed.

(** X2.  The first line that contains "ciroot" decides alone: the count is
    the integer that its third token reads as, and 7 when it has no third
    token or one that is not an integer; the lines before it and after it
    do not count. *)
Theorem first_ciroot_line_decides (pre rest : list string) (line : string) :
  Forall (fun l => PyStr.contains "ciroot" (PyStr.lower l) = false) pre ->
  PyStr.contains "ciroot" (PyStr.lower line) = true ->
  fst (detect_num_roots (pre ++ line :: rest))
  = Some (default 7 (PyStr.split line !! 2%nat ≫= PyStr.int)).
Proof.
  intros Hpre Hline. induction Hpre as [|l pre Hl _ IH]; simpl.
  - rewrite Hline. destruct (PyStr.split line !! 2%nat) as [tok|]; [|done].
    simpl. by destruct (PyStr.int tok).
  - by rewrite Hl.
Qed.

End Count.

(** ** Labels *)

Section Labels.

Lemma CONFIG_LABELS_lookup config label :
  CONFIG_LABELS !! config = Some label ->
  (config, label) ∈ [
    ("2222222u000000", "$\pi_1^*$");
    ("222222200u0000", "$\pi_3^*$");
    ("22222220u00000", "$\pi_2^*$");
    ("22222u22000000", "$\pi\pi_2^*$+$\pi_2^*$");
    ("222222200000u0", "$\pi_4^*$");
    ("2222222000u000", "$\sigma_{NO}^*$");
    ("22222220000u00", "$\sigma_{{CCl}_1}^*$");
    ("2222222000000u", "$\sigma_{{CCl}_2}^*$") ].
Proof. apply elem_of_list_to_map_2. Qed.

(** A label is no configuration string, and two keys have two labels. *)
Lemma label_not_config config label :
  CONFIG_LABELS !! config = Some label -> all_chars occ_char label = false.
Proof.
  intros H%CONFIG_LABELS_lookup.
  repeat (apply elem_of_cons in H as [[= -> ->]|H]; [reflexivity|]).
  by apply elem_of_nil in H.
Qed.

Lemma label_one_key c1 c2 label :
  CONFIG_LABELS !! c1 = Some label -> CONFIG_LABELS !! c2 = Some label -> c1 = c2.
Proof.
  intros H1%CONFIG_LABELS_lookup H2%CONFIG_LABELS_lookup.
  repeat (apply elem_of_cons in H1 as [H1|H1]);
    repeat (apply elem_of_cons in H2 as [H2|H2]);
    try (by apply elem_of_nil in H1); try (by apply elem_of_nil in H2);
    by simplify_eq.
Qed.

Lemma map_config_to_label_inj c1 c2 :
  all_chars occ_char c1 = true -> all_chars occ_char c2 = true ->
  map_config_to_label c1 = map_config_to_label c2 -> c1 = c2.
Proof.
  unfold map_config_to_label. intros H1 H2.
  destruct (CONFIG_LABELS !! c1) as [l1|] eqn:E1,
           (CONFIG_LABELS !! c2) as [l2|] eqn:E2; simpl.
  - intros <-. by eapply label_one_key.
  - intros ->. apply label_not_config in E1. congruence.
  - intros <-. apply label_not_config in E2. congruence.
  - done.
Qed.

(** X12.  Two different configuration strings, as the parser records them
    (digits, [u], [d], [*]), never get the same label: the eight known
    strings have eight labels, no label is itself such a string, and any
    other string is its own label. *)
Theorem labels_distinct c1 c2 :
  all_chars occ_char c1 = true -> all_chars occ_char c2 = true ->
  map_config_to_label c1 = map_config_to_label c2 -> c1 = c2.
Proof. apply map_config_to_label_inj. Qed.

(** X13.  Labelling twice is labelling once: a label is never a key of the
    table. *)
Theorem map_config_to_label_idempotent config :
  map_config_to_label (map_config_to_label config) = map_config_to_label config.
Proof.
  assert (forall c, CONFIG_LABELS !! c = None -> map_config_to_label c = c) as Hnone.
  { intros c Hc. unfold map_config_to_label. by rewrite Hc. }
  destruct (CONFIG_LABELS !! config) as [label|] eqn:E; [|by rewrite !(Hnone config E)].
  assert (map_config_to_label config = label) as ->.
  { unfold map_config_to_label. by rewrite E. }
  apply Hnone. apply label_not_config in E.
  destruct (CONFIG_LABELS !! label) as [l2|] eqn:E2; [exfalso|done].
  apply CONFIG_LABELS_lookup in E2.
  repeat (apply elem_of_cons in E2 as [E2|E2]);
    try (by apply elem_of_nil in E2);
    injection E2 as -> _; discriminate E.
Qed.

End Labels.

(** ** The arguments of [main] *)

Section Arguments.

(** X14.  An argument is split at its first ['=']: it gives a key and a
    value exactly when it is the key, ['='] and the value, the key being
    free of ['=']; a value may contain more of them. *)
Theorem split_eq_iff arg key value :
  split_eq arg = Some (key, value)
  <-> arg = key +:+ String "=" value
      /\ all_chars (fun c => negb (Ascii.eqb c "=")) key = true.
Proof.
  unfold all_chars. revert key.
  induction arg as [|c arg IH]; intros key; cbn [split_eq].
  - split; [done|]. intros [H _]. by destruct key.
  - destruct (Ascii.eqb c "=") eqn:Hc.
    + apply Ascii.eqb_eq in Hc as ->. split.
      * by intros [= <- <-].
      * intros [H Hk]. destruct key as [|c' key]; simpl in H.
        -- by injection H as <-.
        -- injection H as <- _. simpl in Hk. done.
    + split.
      * destruct (split_eq arg) as [[k v]|] eqn:E; [|done].
        simpl. intros [= <- <-].
        destruct (proj1 (IH k) eq_refl) as [-> Hk].
        split; [done|]. simpl. by rewrite Hc, Hk.
      * intros [H Hk]. destruct key as [|c' key]; simpl in H.
        -- injection H as -> _. by rewrite Ascii.eqb_refl in Hc.
        -- injection H as <- H. simpl in Hk. rewrite Hc in Hk. simpl in Hk.
           by rewrite (proj2 (IH key) (conj H Hk)).
Qed.

Lemma read_args_snoc argv arg :
  read_args (argv ++ [arg])
  = match split_eq arg with
    | Some (key, value) => <[key := value]> (read_args argv)
    | None => read_args argv
    end.
Proof. unfold read_args. by rewrite foldl_app. Qed.

Lemma read_args_lookup_last pre arg post key value :
  split_eq arg = Some (key, value) ->
  Forall (fun a => fst <$> split_eq a <> Some key) post ->
  read_args (pre ++ arg :: post) !! key = Some value.
Proof.
  intros Harg. induction post as [|a post IH] using rev_ind; intros Hpost.
  - rewrite read_args_snoc, Harg. apply lookup_insert_eq.
  - apply Forall_app in Hpost as [Hpost Ha]. rewrite Forall_singleton in Ha.
    rewrite app_comm_cons, app_assoc, read_args_snoc.
    destruct (split_eq a) as [[k v]|]; [|by apply IH].
    rewrite lookup_insert_ne by (intros ->; by apply Ha). by apply IH.
Qed.

Lemma read_args_is_Some argv key :
  is_Some (read_args argv !! key)
  <-> Exists (fun a => fst <$> split_eq a = Some key) argv.
Proof.
  induction argv as [|a argv IH] using rev_ind.
  - unfold read_args. simpl. rewrite lookup_empty, Exists_nil.
    split; [by intros [? ?]|done].
  - rewrite read_args_snoc, Exists_app, Exists_cons, Exists_nil.
    destruct (split_eq a) as [[k v]|]; simpl.
    + rewrite lookup_insert_is_Some, IH.
      split.
      * intros [->|[_ ?]]; auto.
      * intros [?|[[= ->]|[]]]; [|by left].
        destruct (decide (k = key)); auto.
    + rewrite IH. split; [auto|]. by intros [?|[?|[]]].
Qed.

(** X15.  Of several arguments with one key the last counts, whatever
    comes before it; arguments without ['='] are passed over. *)
Theorem last_argument_wins pre arg post key value :
  split_eq arg = Some (key, value) ->
  Forall (fun a => fst <$> split_eq a <> Some key) post ->
  read_args (pre ++ arg :: post) !! key = Some value.
Proof. apply read_args_lookup_last. Qed.

End Arguments.

Section MainFacts.
Context {F : PyFloat}.

(** X16.  [main] prints the usage and exits exactly when no argument has
    the key "geo1" or no argument has the key "geo2"; the other arguments
    and the threshold play no part in it. *)
Theorem usage_iff (default_threshold : float) (argv : list string) :
  main_startup default_threshold argv = Usage
  <-> ~ (Exists (fun a => fst <$> split_eq a = Some "geo1") argv
         /\ Exists (fun a => fst <$> split_eq a = Some "geo2") argv).
Proof.
  rewrite <- !read_args_is_Some. unfold main_startup.
  destruct (read_args argv !! "geo1") as [g1|], (read_args argv !! "geo2") as [g2|].
  - split.
    + destruct (read_args argv !! "thres") as [t|]; [|done].
      by destruct (float_of_str t).
    + intros H. destruct H. split; by eexists.
  - split; [|done]. intros _ [_ [? ?]]. done.
  - split; [|done]. intros _ [[? ?] _]. done.
  - split; [|done]. intros _ [[? ?] _]. done.
Qed.

(** ** The roots and rows of [main] *)

Lemma foldr_max_bounds k ks :
  let m := foldr Z.max k ks in
  m ∈ k :: ks /\ forall x, x ∈ k :: ks -> x <= m.
Proof.
  induction ks as [|a ks [IH1 IH2]]; simpl.
  - split; [apply list_elem_of_here|]. intros x Hx. apply list_elem_of_singleton in Hx. lia.
  - split.
    + destruct (Z.max_spec a (foldr Z.max k ks)) as [[_ ->]|[_ ->]].
      * apply elem_of_cons in IH1 as [->|IH1]; [apply list_elem_of_here|].
        by do 2 apply list_elem_of_further.
      * apply list_elem_of_further, list_elem_of_here.
    + intros x Hx. apply elem_of_cons in Hx as [->|Hx].
      * pose proof (IH2 k (list_elem_of_here _ _)). lia.
      * apply elem_of_cons in Hx as [->|Hx]; [lia|].
        pose proof (IH2 x (list_elem_of_further _ _ _ Hx)). lia.
Qed.

Lemma max_key_range (collection : gmap Z RootRecord) (num_roots : Z) :
  (forall k, is_Some (collection !! k) <-> 1 <= k <= num_roots) ->
  max_key collection = Z.max 0 num_roots.
Proof.
  intros Hdom. unfold max_key.
  destruct (elements (dom collection)) as [|k ks] eqn:E.
  - apply elements_empty_inv in E. apply leibniz_equiv in E.
    destruct (decide (1 <= num_roots)) as [Hn|Hn]; [|lia].
    assert (1 ∈ dom collection) as H1 by (apply elem_of_dom, Hdom; lia).
    rewrite E in H1. by apply not_elem_of_empty in H1.
  - destruct (foldr_max_bounds k ks) as [Hin Hmax]. rewrite <- E in Hin, Hmax.
    apply elem_of_elements, elem_of_dom, Hdom in Hin.
    assert (num_roots ∈ elements (dom collection)) as Hn
      by (apply elem_of_elements, elem_of_dom, Hdom; lia).
    apply Hmax in Hn. lia.
Qed.

(** X17.  For two parsed files, [main] goes through the roots
    1..max(n1, n2), where n1 and n2 are the root counts detected in the two
    files (through none when both are below 1): every root that has a
    record in either collection is processed. *)
Theorem main_num_roots_counts f1 f2 t1 t2 planar_roots nonplanar_roots n1 n2 :
  fst (detect_num_roots f1) = Some n1 ->
  parse_ras_weights f1 t1 = Ok planar_roots ->
  fst (detect_num_roots f2) = Some n2 ->
  parse_ras_weights f2 t2 = Ok nonplanar_roots ->
  main_num_roots planar_roots nonplanar_roots = Z.max 0 (Z.max n1 n2).
Proof.
  intros Hn1 Hp1 Hn2 Hp2. unfold main_num_roots.
  rewrite (max_key_range planar_roots n1), (max_key_range nonplanar_roots n2).
  - lia.
  - intros k. by eapply parse_indices.
  - intros k. by eapply parse_indices.
Qed.

(** X18.  In the header of a report, "N/A" stands for the energy of a root
    exactly when the parsed file has no record for it, that is when the
    root is outside 1..num_roots of that file. *)
Theorem not_available_iff f threshold rs num_roots root :
  fst (detect_num_roots f) = Some num_roots ->
  parse_ras_weights f threshold = Ok rs ->
  get_energy rs root (PyString "N/A") = PyString "N/A"
  <-> ~ (1 <= root <= num_roots).
Proof.
  intros Hn Hp. rewrite <- (parse_indices f threshold rs num_roots root Hn Hp).
  unfold get_energy. destruct (rs !! root) as [r|].
  - split; [by destruct (energy r)|]. intros H. destruct H. by eexists.
  - split; [|done]. intros _ [? ?]. done.
Qed.

(** X19.  The rows of the table of a root have pairwise different labels
    when the two collections come from the parser, and there is one row
    for each configuration recorded for the root in either file. *)
Theorem table_rows_labels_distinct f1 f2 t1 t2 planar_roots nonplanar_roots
    (zero : float) root :
  parse_ras_weights f1 t1 = Ok planar_roots ->
  parse_ras_weights f2 t2 = Ok nonplanar_roots ->
  NoDup ((fun row => fst (fst row))
           <$> table_rows zero planar_roots nonplanar_roots root)
  /\ length (table_rows zero planar_roots nonplanar_roots root)
     = size (all_confs planar_roots nonplanar_roots root).
Proof.
  intros Hp1 Hp2. unfold table_rows. split; [|by rewrite length_fmap].
  rewrite <- list_fmap_compose.
  apply NoDup_fmap_2_strong; [|apply NoDup_elements].
  assert (forall f t rs c, parse_ras_weights f t = Ok rs ->
            c ∈ dom (get_configs rs root) -> all_chars occ_char c = true) as Hchars.
  { intros f t rs c Hp [w Hw]%elem_of_dom. unfold get_configs in Hw.
    destruct (rs !! root) as [r|] eqn:Hr; [|by rewrite lookup_empty in Hw].
    by eapply parse_configs_chars. }
  intros c1 c2 H1%elem_of_elements H2%elem_of_elements. simpl.
  unfold all_confs in H1, H2. apply map_config_to_label_inj.
  - apply elem_of_union in H1 as [H1|H1];
      [exact (Hchars f1 t1 _ _ Hp1 H1)|exact (Hchars f2 t2 _ _ Hp2 H1)].
  - apply elem_of_union in H2 as [H2|H2];
      [exact (Hchars f1 t1 _ _ Hp1 H2)|exact (Hchars f2 t2 _ _ Hp2 H2)].
Qed.

End MainFacts.

(** * Further runs on double precision floats *)

Section Binary64MoreRuns.
Import Binary64 Samples MoreSamples.

Lemma first_ciroot_line_decides_witness :
  (Forall (fun l => PyStr.contains "ciroot" (PyStr.lower l) = false)
          (take 2 log_no_ciroot)
   /\ PyStr.contains "ciroot" (PyStr.lower ciroot_line) = true)
  /\ fst (detect_num_roots (F := binary64)
            (take 2 log_no_ciroot ++ ciroot_line :: log_one_root))
     = Some (default 7 (PyStr.split ciroot_line !! 2%nat ≫= PyStr.int)).
Proof.
  assert (Forall (fun l => PyStr.contains "ciroot" (PyStr.lower l) = false)
                 (take 2 log_no_ciroot)) as H1 by (repeat constructor).
  assert (PyStr.contains "ciroot" (PyStr.lower ciroot_line) = true) as H2
    by reflexivity.
  split; [by split|].
  exact (first_ciroot_line_decides (F := binary64) (take 2 log_no_ciroot)
           log_one_root ciroot_line H1 H2).
Defined.

Example detect_upper_case :
  fst (detect_num_roots (F := binary64) log_no_blocks) = Some 2.
Proof. reflexivity. Qed.

Lemma recorded_configs_alphabet_witness :
  (parse_ras_weights log_one_root threshold_005
   = Ok (parsed log_one_root threshold_005)
   /\ parsed log_one_root threshold_005 !! 1
      = Some (record (parsed log_one_root threshold_005) 1)
   /\ configs (record (parsed log_one_root threshold_005) 1) !! "2222222u000000"
      = Some (literal "1.0"))
  /\ all_chars occ_char "2222222u000000" = true.
Proof.
  assert (parse_ras_weights log_one_root threshold_005
          = Ok (parsed log_one_root threshold_005)) as H1 by reflexivity.
  assert (parsed log_one_root threshold_005 !! 1
          = Some (record (parsed log_one_root threshold_005) 1)) as H2 by reflexivity.
  assert (configs (record (parsed log_one_root threshold_005) 1) !! "2222222u000000"
          = Some (literal "1.0")) as H3 by reflexivity.
  split; [by repeat split|].
  exact (recorded_configs_alphabet log_one_root threshold_005 _ 1 _
           "2222222u000000" (literal "1.0") H1 H2 H3).
Defined.

Lemma no_root_start_initial_roots_witness :
  (fst (detect_num_roots (F := binary64) log_no_blocks) = Some 2
   /\ Forall (fun line => PyStr.contains root_start_phrase line = false) log_no_blocks)
  /\ parse_ras_weights log_no_blocks threshold_02 = Ok (initial_roots 2).
Proof.
  assert (fst (detect_num_roots (F := binary64) log_no_blocks) = Some 2) as H1
    by reflexivity.
  assert (Forall (fun line => PyStr.contains root_start_phrase line = false)
                 log_no_blocks) as H2 by (repeat constructor).
  split; [by split|].
  exact (no_root_start_initial_roots log_no_blocks threshold_02 2 H1 H2).
Defined.

Lemma well_formed_completes_witness :
  (fst (detect_num_roots (F := binary64) log_three_roots) = Some 3
   /\ well_formed 3 log_three_roots = true)
  /\ exists rs, parse_ras_weights log_three_roots threshold_02 = Ok rs.
Proof.
  assert (fst (detect_num_roots (F := binary64) log_three_roots) = Some 3) as H1
    by reflexivity.
  assert (well_formed 3 log_three_roots = true) as H2 by reflexivity.
  split; [by split|].
  exact (well_formed_completes log_three_roots threshold_02 3 H1 H2).
Defined.

Lemma loop_two_parts_witness :
  loop threshold_02 (initial_state 1) (take 3 log_one_root)
  = Ok (state_of (loop threshold_02 (initial_state 1) (take 3 log_one_root))
                 (initial_state 1))
  /\ loop threshold_02 (initial_state 1) (take 3 log_one_root ++ drop 3 log_one_root)
     = loop threshold_02
         (state_of (loop threshold_02 (initial_state 1) (take 3 log_one_root))
                   (initial_state 1))
         (drop 3 log_one_root).
Proof.
  assert (loop threshold_02 (initial_state 1) (take 3 log_one_root)
          = Ok (state_of (loop threshold_02 (initial_state 1) (take 3 log_one_root))
                         (initial_state 1))) as H by reflexivity.
  split; [exact H|].
  exact (loop_two_parts threshold_02 (take 3 log_one_root) (drop 3 log_one_root)
           (initial_state 1) _ H).
Defined.

Lemma unadmitted_line_ignored_witness :
  (PyStr.contains root_start_phrase config_line_low = false
   /\ (in_config_section in_root_1 = false \/ current_root in_root_1 <= 0
       \/ forall conf coeff weight,
            ~ admits threshold_02 config_line_low conf coeff weight))
  /\ loop threshold_02 in_root_1 [config_line_low; config_line_1]
     = loop threshold_02 in_root_1 [config_line_1].
Proof.
  assert (PyStr.contains root_start_phrase config_line_low = false) as H1
    by reflexivity.
  assert (in_config_section in_root_1 = false \/ current_root in_root_1 <= 0
          \/ forall conf coeff weight,
               ~ admits threshold_02 config_line_low conf coeff weight) as H2.
  { right; right.
    intros conf coeff weight (conf_num & g3 & g4 & w & Hm & _ & H3 & _ & _ & Hge).
    vm_compute in Hm. injection Hm as <- <- <- <-.
    vm_compute in H3. injection H3 as <-. vm_compute in Hge. discriminate Hge. }
  split; [by split|].
  exact (unadmitted_line_ignored threshold_02 in_root_1 config_line_low
           [config_line_1] H1 H2).
Defined.

Lemma later_weight_wins_witness :
  (in_config_section in_root_1 = true
   /\ 0 < current_root in_root_1
   /\ roots in_root_1 !! current_root in_root_1 = Some empty_record
   /\ PyStr.contains root_start_phrase config_line_1 = false
   /\ PyStr.contains root_start_phrase config_line_2 = false
   /\ admits threshold_02 config_line_1 "22222220u00000"
        (literal "-0.950") (literal "90.2")
   /\ admits threshold_02 config_line_2 "22222220u00000"
        (literal "0.500") (literal "25.0"))
  /\ exists st',
       loop threshold_02 in_root_1 [config_line_1; config_line_2]
       = loop threshold_02 st' []
       /\ roots st' = <[current_root in_root_1
                        := set_config "22222220u00000" (literal "25.0") empty_record]>
                        (roots in_root_1)
       /\ current_root st' = current_root in_root_1
       /\ in_config_section st' = true.
Proof.
  assert (in_config_section in_root_1 = true) as H1 by reflexivity.
  assert (0 < current_root in_root_1) as H2 by reflexivity.
  assert (roots in_root_1 !! current_root in_root_1 = Some empty_record) as H3
    by reflexivity.
  assert (PyStr.contains root_start_phrase config_line_1 = false) as H4 by reflexivity.
  assert (PyStr.contains root_start_phrase config_line_2 = false) as H5 by reflexivity.
  assert (admits threshold_02 config_line_1 "22222220u00000"
            (literal "-0.950") (literal "90.2")) as H6.
  { exists "1", "-0.950", "0.902", (literal "0.902"). repeat split; reflexivity. }
  assert (admits threshold_02 config_line_2 "22222220u00000"
            (literal "0.500") (literal "25.0")) as H7.
  { exists "3", "0.500", "0.250", (literal "0.250"). repeat split; reflexivity. }
  split; [exact (conj H1 (conj H2 (conj H3 (conj H4 (conj H5 (conj H6 H7))))))|].
  exact (later_weight_wins threshold_02 in_root_1 config_line_1 config_line_2 []
           "22222220u00000" _ _ _ _ empty_record H1 H2 H3 H4 H5 H6 H7).
Defined.

Lemma no_energy_begins_block_witness :
  (PyStr.contains root_start_phrase root_start_line = true
   /\ root_index root_start_line = Ok 1
   /\ line_energy (F := binary64) bad_energy_line = None)
  /\ exists st',
       loop threshold_02 (initial_state 0) [root_start_line; bad_energy_line; config_line_low]
       = loop threshold_02 st' [config_line_low]
       /\ roots st' = roots (initial_state 0)
       /\ current_root st' = 1
       /\ in_config_section st' = true.
Proof.
  assert (PyStr.contains root_start_phrase root_start_line = true) as H1 by reflexivity.
  assert (root_index root_start_line = Ok 1) as H2 by reflexivity.
  assert (line_energy (F := binary64) bad_energy_line = None) as H3 by reflexivity.
  split; [by repeat split|].
  exact (no_energy_begins_block threshold_02 (initial_state 0) root_start_line
           bad_energy_line [config_line_low] 1 H1 H2 H3).
Defined.

Lemma section_never_left_witness :
  (in_config_section in_root_1 = true
   /\ loop threshold_02 in_root_1 [natural_orbitals_line; config_line_1]
      = Ok (state_of (loop threshold_02 in_root_1 [natural_orbitals_line; config_line_1])
                     in_root_1))
  /\ in_config_section
       (state_of (loop threshold_02 in_root_1 [natural_orbitals_line; config_line_1])
                 in_root_1) = true.
Proof.
  assert (in_config_section in_root_1 = true) as H1 by reflexivity.
  assert (loop threshold_02 in_root_1 [natural_orbitals_line; config_line_1]
          = Ok (state_of (loop threshold_02 in_root_1
                            [natural_orbitals_line; config_line_1]) in_root_1)) as H2
    by reflexivity.
  split; [by split|].
  exact (section_never_left threshold_02 _ in_root_1 _ H1 H2).
Defined.

Lemma labels_distinct_witness :
  (all_chars occ_char "22222220u00000" = true
   /\ all_chars occ_char "22222220u00000" = true
   /\ map_config_to_label "22222220u00000" = map_config_to_label "22222220u00000")
  /\ "22222220u00000" = "22222220u00000".
Proof.
  assert (all_chars occ_char "22222220u00000" = true) as H1 by reflexivity.
  assert (map_config_to_label "22222220u00000" = map_config_to_label "22222220u00000")
    as H2 by reflexivity.
  split; [by repeat split|].
  exact (labels_distinct "22222220u00000" "22222220u00000" H1 H1 H2).
Defined.

Example map_config_to_label_known :
  map_config_to_label "22222220u00000" = "$\pi_2^*$"
  /\ map_config_to_label "2222222ud00000" = "2222222ud00000".
Proof. split; reflexivity. Qed.

Lemma last_argument_wins_witness :
  (split_eq "thres=0.3" = Some ("thres", "0.3")
   /\ Forall (fun a => fst <$> split_eq a <> Some "thres") (drop 3 argv_1))
  /\ read_args argv_1 !! "thres" = Some "0.3".
Proof.
  assert (split_eq "thres=0.3" = Some ("thres", "0.3")) as H1 by reflexivity.
  assert (Forall (fun a => fst <$> split_eq a <> Some "thres") (drop 3 argv_1)) as H2
    by (repeat constructor; discriminate).
  split; [by split|].
  exact (last_argument_wins (take 2 argv_1) "thres=0.3" (drop 3 argv_1)
           "thres" "0.3" H1 H2).
Defined.

Example main_startup_argv_1 :
  main_startup threshold_02 argv_1 = Started (literal "0.3") "bent.log" "flat.log"
  /\ main_startup threshold_02 ["geo1=bent.log"; "geo2=flat.log"]
     = Started threshold_02 "bent.log" "flat.log"
  /\ main_startup threshold_02 ["geo1=bent.log"; "geo2=flat.log"; "thres=high"]
     = BadThreshold
  /\ main_startup threshold_02 ["geo1=bent.log"; "thres=0.3"] = Usage.
Proof. repeat split; reflexivity. Qed.

(** [float] drops the whitespace around the threshold. *)
Example main_startup_threshold_spaces :
  main_startup threshold_02 ["geo1=bent.log"; "geo2=flat.log"; "thres= 0.3 "]
  = Started (literal "0.3") "bent.log" "flat.log".
Proof. reflexivity. Qed.

Lemma main_num_roots_counts_witness :
  (fst (detect_num_roots (F := binary64) log_one_root) = Some 1
   /\ parse_ras_weights log_one_root threshold_02
      = Ok (parsed log_one_root threshold_02)
   /\ fst (detect_num_roots (F := binary64) log_three_roots) = Some 3
   /\ parse_ras_weights log_three_roots threshold_02
      = Ok (parsed log_three_roots threshold_02))
  /\ main_num_roots (parsed log_one_root threshold_02)
       (parsed log_three_roots threshold_02) = Z.max 0 (Z.max 1 3).
Proof.
  assert (fst (detect_num_roots (F := binary64) log_one_root) = Some 1) as H1
    by reflexivity.
  assert (parse_ras_weights log_one_root threshold_02
          = Ok (parsed log_one_root threshold_02)) as H2 by reflexivity.
  assert (fst (detect_num_roots (F := binary64) log_three_roots) = Some 3) as H3
    by reflexivity.
  assert (parse_ras_weights log_three_roots threshold_02
          = Ok (parsed log_three_roots threshold_02)) as H4 by reflexivity.
  split; [by repeat split|].
  exact (main_num_roots_counts log_one_root log_three_roots threshold_02 threshold_02
           _ _ 1 3 H1 H2 H3 H4).
Defined.

Lemma not_available_iff_witness :
  (fst (detect_num_roots (F := binary64) log_one_root) = Some 1
   /\ parse_ras_weights log_one_root threshold_02
      = Ok (parsed log_one_root threshold_02))
  /\ (get_energy (parsed log_one_root threshold_02) 2 (PyString "N/A") = PyString "N/A"
      <-> ~ (1 <= 2 <= 1)).
Proof.
  assert (fst (detect_num_roots (F := binary64) log_one_root) = Some 1) as H1
    by reflexivity.
  assert (parse_ras_weights log_one_root threshold_02
          = Ok (parsed log_one_root threshold_02)) as H2 by reflexivity.
  split; [by split|].
  exact (not_available_iff log_one_root threshold_02 _ 1 2 H1 H2).
Defined.

Lemma table_rows_labels_distinct_witness :
  (parse_ras_weights log_one_root threshold_005
   = Ok (parsed log_one_root threshold_005)
   /\ parse_ras_weights log_after_section threshold_02
      = Ok (parsed log_after_section threshold_02))
  /\ (NoDup ((fun row => fst (fst row))
               <$> table_rows (literal "0.0") (parsed log_one_root threshold_005)
                     (parsed log_after_section threshold_02) 1)
      /\ length (table_rows (literal "0.0") (parsed log_one_root threshold_005)
                   (parsed log_after_section threshold_02) 1)
         = size (all_confs (parsed log_one_root threshold_005)
                   (parsed log_after_section threshold_02) 1)).
Proof.
  assert (parse_ras_weights log_one_root threshold_005
          = Ok (parsed log_one_root threshold_005)) as H1 by reflexivity.
  assert (parse_ras_weights log_after_section threshold_02
          = Ok (parsed log_after_section threshold_02)) as H2 by reflexivity.
  split; [by split|].
  exact (table_rows_labels_distinct log_one_root log_after_section
           threshold_005 threshold_02 _ _ (literal "0.0") 1 H1 H2).
Defined.

(** The table of root 1 for the two samples: three rows, the
    configuration that both files have with its two weights. *)
Example table_rows_root_1 :
  length (table_rows (literal "0.0") (parsed log_one_root threshold_005)
            (parsed log_after_section threshold_02) 1) = 3%nat
  /\ ("$\pi_2^*$", literal "90.2", literal "90.2")
     ∈ table_rows (literal "0.0") (parsed log_one_root threshold_005)
         (parsed log_after_section threshold_02) 1
  /\ ("$\pi_1^*$", literal "1.0", literal "0.0")
     ∈ table_rows (literal "0.0") (parsed log_one_root threshold_005)
         (parsed log_after_section threshold_02) 1
  /\ ("$\pi_3^*$", literal "0.0", literal "25.0")
     ∈ table_rows (literal "0.0") (parsed log_one_root threshold_005)
         (parsed log_after_section threshold_02) 1.
Proof.
  split; [reflexivity|].
  repeat split; apply list_elem_of_lookup.
  - by exists 1%nat.
  - by exists 0%nat.
  - by exists 2%nat.
Qed.

End Binary64MoreRuns.
